(** * bro-otx: the OTX pulse exporter, embedded and verified

    A shallow embedding of [bro-otx.py]: the paginated fetcher ([_get],
    [iter_pulses]), the indicator type table ([_MAP], [map_indicator_type])
    and the record writer ([main]).

    Modelling choices, all read off the source:
    - values coming back from [r.json()] are untyped JSON values ([json]);
      Python's [None] is [JNull]; JSON objects are dictionaries ([gmap]);
      numbers are integers (the script never computes with them);
    - Python 2 has byte strings ([str]) and text strings ([unicode]); both
      are strings of Rocq, whose characters range over 0..255: bytes for the
      first, code points for the second (text beyond U+00FF is outside the
      model, and behaves as the code points 128..255 do). The strings
      inside a JSON value are text; the literals of the script and the
      values of its configuration are byte strings. The two meet in the
      join of the record, which decodes byte strings with the ASCII codec,
      and in the write to the file, which encodes text with it;
    - Python exceptions are the constructors of [exn]; a computation that
      may raise returns a [result];
    - the remote service is an oracle [server]: given how many requests were
      sent before and the request, it gives a response, or nothing when the
      HTTP client itself raises;
    - the process state ([world]) is the log of requests sent, the lines
      printed on standard output and the chunks written to the output file;
    - the generator [iter_pulses] is a state machine ([gen_state],
      [gen_step]) that the consumer resumes; loops that the remote service
      can keep alive take fuel.
    Reading the configuration file, the clock and opening the output file
    are outside the model: [main] receives the configuration values and the
    cutoff timestamp. *)

From Stdlib Require Import ZArith.
From stdpp Require Import gmap strings list fin_maps.

Local Open Scope Z_scope.

(** ** Values *)

#[warnings="-register-all"]
Inductive json : Type :=
  | JNull
  | JBool (b : bool)
  | JNum (n : Z)
  | JStr (s : string)
  | JArr (l : list json)
  | JObj (d : gmap string json).

Inductive exn : Type :=
  | KeyError
  | IndexError
  | TypeError
  | ValueError
  | RequestException
  | UnicodeDecodeError
  | UnicodeEncodeError
  | SystemExit (code : Z).

Inductive result (A : Type) : Type :=
  | Ok (a : A)
  | Raise (e : exn).
Arguments Ok {A} a.
Arguments Raise {A} e.

#[global] Instance result_ret : MRet result := fun A a => Ok a.
#[global] Instance result_bind : MBind result := fun A B f r =>
  match r with
  | Ok a => f a
  | Raise e => Raise e
  end.

Definition TAB : string := String (Ascii.ascii_of_nat 9) EmptyString.
Definition NL : string := String (Ascii.ascii_of_nat 10) EmptyString.

(** ** Python primitives used by the script *)

(** [v[k]] for a string key [k]. *)
Definition py_getitem (v : json) (k : string) : result json :=
  match v with
  | JObj d => match d !! k with
              | Some x => Ok x
              | None => Raise KeyError
              end
  | _ => Raise TypeError
  end.

(** [v[0]]. The keys of a JSON object are strings, so [0] is never one. *)
Definition py_getitem0 (v : json) : result json :=
  match v with
  | JArr l => match l with
              | x :: _ => Ok x
              | [] => Raise IndexError
              end
  | JStr s => match s with
              | String c _ => Ok (JStr (String c EmptyString))
              | EmptyString => Raise IndexError
              end
  | JObj _ => Raise KeyError
  | _ => Raise TypeError
  end.

Fixpoint chars (s : string) : list json :=
  match s with
  | EmptyString => []
  | String c s' => JStr (String c EmptyString) :: chars s'
  end.

(** [iter(v)], as a [for] loop takes it. A dictionary iterates over its
    keys, in the order of the map. *)
Definition py_iter (v : json) : result (list json) :=
  match v with
  | JArr l => Ok l
  | JStr s => Ok (chars s)
  | JObj d => Ok (JStr <$> (map_to_list d).*1)
  | _ => Raise TypeError
  end.

(** Truth value of [v], as [while v:] takes it. *)
Definition py_bool (v : json) : bool :=
  match v with
  | JNull => false
  | JBool b => b
  | JNum n => negb (n =? 0)
  | JStr s => negb (String.eqb s EmptyString)
  | JArr l => match l with [] => false | _ => true end
  | JObj d => match map_to_list d with [] => false | _ => true end
  end.

(** [v == ''] *)
Definition py_eq_empty_str (v : json) : bool :=
  match v with
  | JStr s => String.eqb s EmptyString
  | _ => false
  end.

(** What the ASCII codec accepts: no character over 127. *)
Definition is_ascii (s : string) : bool :=
  forallb (fun c => Nat.ltb (Ascii.nat_of_ascii c) 128) (String.list_ascii_of_string s).

(** The items of a list handed to a join, which all have to be strings. *)
Fixpoint as_strs (fields : list json) : result (list string) :=
  match fields with
  | [] => Ok []
  | JStr s :: rest => ss ← as_strs rest; Ok (s :: ss)
  | _ :: _ => Raise TypeError
  end.

(** [sep.join(fields)] for the list [fields] of [main]. Its first item comes
    from the JSON value, so past that item the join is a text join: it
    takes the items in order, raises [TypeError] at one that is no string,
    and decodes a byte string with the ASCII codec. The byte strings of the
    list are the category and the fallback URL, ASCII literals both, and
    the last item, the notice flag of the configuration with its newline:
    [UnicodeDecodeError] when that one holds a byte over 127. The result is
    text. *)
Definition str_join (sep : string) (fields : list json) : result string :=
  ss ← as_strs fields;
  match last ss with
  | Some notice =>
      if is_ascii notice then Ok (String.concat sep ss)
      else Raise UnicodeDecodeError
  | None => Ok (String.concat sep ss)
  end.

(** ** Constants of the script *)

Definition _URL : string := "http://otx.alienvault.com/api/v1/pulses/subscribed".

Definition _HEADER : string :=
  "#fields" +:+ TAB +:+ "indicator" +:+ TAB +:+ "indicator_type" +:+ TAB +:+
  "meta.source" +:+ TAB +:+ "meta.url" +:+ TAB +:+ "meta.do_notice" +:+ NL.

Definition _MAP_items : list (string * string) :=
  [ ("IPv4", "Intel::ADDR");
    ("IPv6", "Intel::ADDR");
    ("domain", "Intel::DOMAIN");
    ("hostname", "Intel::DOMAIN");
    ("email", "Intel::EMAIL");
    ("URL", "Intel::URL");
    ("URI", "Intel::URL");
    ("FileHash-MD5", "Intel::FILE_HASH");
    ("FileHash-SHA1", "Intel::FILE_HASH");
    ("FileHash-SHA256", "Intel::FILE_HASH");
    ("CVE", "Unsupported");
    ("Mutex", "Unsupported");
    ("CIDR", "Unsupported") ].

Definition _MAP : gmap string string := list_to_map _MAP_items.

Definition fallback_url : string := "https://otx.alienvault.com".

(** ** The type mapper *)

(** [_MAP[indicator_type]]: a missing key raises [KeyError]; a list or a
    dictionary is not hashable and raises [TypeError]. *)
Definition map_indicator_type (indicator_type : json) : result string :=
  match indicator_type with
  | JStr t => match _MAP !! t with
              | Some c => Ok c
              | None => Raise KeyError
              end
  | JArr _ | JObj _ => Raise TypeError
  | _ => Raise KeyError
  end.

(** ** The process state *)

Record response : Type := Response {
  status_code : Z;
  body : option json          (* [None]: the body is not JSON *)
}.

Record request : Type := Request {
  req_url : json;
  req_headers : list (string * string);
  req_params : option (list (string * json))
}.

Record world : Type := World {
  sent : list (request * option response);
  stdout : list string;
  written : list string
}.

Definition M (A : Type) : Type := world → result A * world.

#[global] Instance M_ret : MRet M := fun A a w => (Ok a, w).
#[global] Instance M_bind : MBind M := fun A B f c w =>
  match c w with
  | (Ok a, w') => f a w'
  | (Raise e, w') => (Raise e, w')
  end.

Definition lift {A : Type} (r : result A) : M A := fun w => (r, w).

Definition raise {A : Type} (e : exn) : M A := fun w => (Raise e, w).

(** [print(msg)] *)
Definition print (msg : string) : M unit := fun w =>
  (Ok (), World (sent w) (stdout w ++ [msg]) (written w)).

(** [sys.exit(code)] *)
Definition sys_exit {A : Type} (code : Z) : M A := raise (SystemExit code).

(** What [f.write] is given: a byte string or text. *)
Inductive py_string : Type :=
  | Bytes (s : string)
  | Text (s : string).

(** [f.write(data)] on the file opened with ['wb']: a byte string is
    written as it is, text is first encoded with the ASCII codec, which
    raises [UnicodeEncodeError] at a character over 127. *)
Definition f_write (data : py_string) : M unit := fun w =>
  match data with
  | Bytes s => (Ok (), World (sent w) (stdout w) (written w ++ [s]))
  | Text s =>
      if is_ascii s then (Ok (), World (sent w) (stdout w) (written w ++ [s]))
      else (Raise UnicodeEncodeError, w)
  end.

(** [try: c except IndexError: h] *)
Definition try_except_IndexError {A : Type} (c : result A) (h : result A) : result A :=
  match c with
  | Raise IndexError => h
  | r => r
  end.

Section Program.

(** The remote service: the number of requests sent before, the request,
    and what comes back ([None] when [requests.get] itself raises). *)
Variable server : nat → request → option response.

(** [requests.get(url, headers=headers, params=params)] *)
Definition requests_get (url : json) (headers : list (string * string))
    (params : option (list (string * json))) : M response := fun w =>
  let rq := Request url headers params in
  let answer := server (length (sent w)) rq in
  let w' := World (sent w ++ [(rq, answer)]) (stdout w) (written w) in
  match answer with
  | Some r => (Ok r, w')
  | None => (Raise RequestException, w')
  end.

(** [r.json()] *)
Definition r_json (r : response) : M json :=
  match body r with
  | Some j => mret j
  | None => raise ValueError
  end.

(** ** The fetcher *)

Definition _get (key mtime : string) (limit : Z) (next_request : json) : M json :=
  let headers := [("X-OTX-API-KEY", key)] in
  let params := [("limit", JNum limit); ("modified_since", JStr mtime)] in
  r ← (if py_eq_empty_str next_request
       then requests_get (JStr _URL) headers (Some params)
       else requests_get next_request headers None);
  if status_code r =? 200 then r_json r
  else if status_code r =? 403 then
    print "An invalid API key was specified.";; sys_exit 1
  else if status_code r =? 400 then
    print "An invalid request was made.";; sys_exit 1
  else mret JNull.

(** The generator [iter_pulses], suspended at one of its program points. *)
Inductive gen_state : Type :=
  | GStart                                           (* not started *)
  | GFirst (rest : list json) (initial_results : json) (* in the first [for] *)
  | GWhile (next_request : json)                     (* at the [while] test *)
  | GPage (rest : list json) (json_data : json).     (* in the inner [for] *)

Inductive gen_event : Type :=
  | Yield (result : json) (g : gen_state)
  | Tau (g : gen_state)
  | Stop.

Definition gen_step (key mtime : string) (limit : Z) (g : gen_state) : M gen_event :=
  match g with
  | GStart =>
      initial_results ← _get key mtime limit (JStr EmptyString);
      results ← lift (py_getitem initial_results "results");
      items ← lift (py_iter results);
      mret (Tau (GFirst items initial_results))
  | GFirst (result :: rest) initial_results =>
      mret (Yield result (GFirst rest initial_results))
  | GFirst [] initial_results =>
      next_request ← lift (py_getitem initial_results "next");
      mret (Tau (GWhile next_request))
  | GWhile next_request =>
      if py_bool next_request then
        json_data ← _get key mtime 20 next_request;
        results ← lift (py_getitem json_data "results");
        items ← lift (py_iter results);
        mret (Tau (GPage items json_data))
      else mret Stop
  | GPage (result :: rest) json_data =>
      mret (Yield result (GPage rest json_data))
  | GPage [] json_data =>
      next_request ← lift (py_getitem json_data "next");
      mret (Tau (GWhile next_request))
  end.

(** How a run of the generator ends. *)
Inductive gen_end : Type :=
  | Exhausted
  | Raised (e : exn)
  | Suspended (g : gen_state).

(** [list(iter_pulses(key, mtime, limit))], resumed at most [fuel] times:
    what was yielded, in order, and how the run ended. *)
Fixpoint iter_pulses_from (key mtime : string) (limit : Z) (fuel : nat)
    (g : gen_state) (w : world) : list json * gen_end * world :=
  match fuel with
  | O => ([], Suspended g, w)
  | S fuel' =>
      match gen_step key mtime limit g w with
      | (Ok (Yield result g'), w') =>
          let '(ys, e, w'') := iter_pulses_from key mtime limit fuel' g' w' in
          (result :: ys, e, w'')
      | (Ok (Tau g'), w') => iter_pulses_from key mtime limit fuel' g' w'
      | (Ok Stop, w') => ([], Exhausted, w')
      | (Raise e, w') => ([], Raised e, w')
      end
  end.

Definition iter_pulses (key mtime : string) (limit : Z) (fuel : nat) (w : world)
    : list json * gen_end * world :=
  iter_pulses_from key mtime limit fuel GStart w.

(** ** The record builder and writer *)

(** [pulse[u'references'][0]] *)
Definition first_reference (pulse : json) : result json :=
  references ← py_getitem pulse "references"; py_getitem0 references.

(** The body of the inner loop of [main] up to the list [fields]: [None] is
    the [continue] of an unsupported indicator. *)
Definition build_fields (do_notice : string) (pulse indicator : json)
    : result (option (list json)) :=
  ty ← py_getitem indicator "type";
  bro_type ← map_indicator_type ty;
  if String.eqb bro_type "Unsupported" then Ok None
  else
    url ← try_except_IndexError (first_reference pulse) (Ok (JStr fallback_url));
    value ← py_getitem indicator "indicator";
    author ← py_getitem pulse "author_name";
    Ok (Some [value; JStr bro_type; author; url; JStr (do_notice +:+ NL)]).

Definition main_indicator (do_notice : string) (pulse indicator : json) : M unit :=
  fields ← lift (build_fields do_notice pulse indicator);
  match fields with
  | Some fs => data ← lift (str_join TAB fs); f_write (Text data)
  | None => mret ()
  end.

Fixpoint main_indicators (do_notice : string) (pulse : json)
    (indicators : list json) : M unit :=
  match indicators with
  | [] => mret ()
  | indicator :: rest =>
      main_indicator do_notice pulse indicator;;
      main_indicators do_notice pulse rest
  end.

(** [for indicator in pulse[u'indicators']: ...] *)
Definition main_pulse (do_notice : string) (pulse : json) : M unit :=
  indicators ← lift (py_getitem pulse "indicators");
  items ← lift (py_iter indicators);
  main_indicators do_notice pulse items.

(** [for pulse in iter_pulses(key, mtime): ...]; [false] when the fuel ran
    out before the generator was exhausted. *)
Fixpoint main_pulses (key mtime do_notice : string) (fuel : nat)
    (g : gen_state) : M bool :=
  match fuel with
  | O => mret false
  | S fuel' =>
      ev ← gen_step key mtime 20 g;
      match ev with
      | Yield pulse g' =>
          main_pulse do_notice pulse;;
          main_pulses key mtime do_notice fuel' g'
      | Tau g' => main_pulses key mtime do_notice fuel' g'
      | Stop => mret true
      end
  end.

Record config : Type := Config {
  api_key : string;
  days_of_history : Z;
  outfile : string;
  do_notice : string
}.

(** How the process ends. *)
Inductive outcome : Type :=
  | Completed                 (* [main] returned *)
  | Exited (code : Z)         (* [sys.exit(code)] *)
  | Uncaught (e : exn)        (* traceback *)
  | Running.                  (* out of fuel *)

Definition exit_code (o : outcome) : option Z :=
  match o with
  | Completed => Some 0
  | Exited code => Some code
  | Uncaught _ => Some 1
  | Running => None
  end.

Definition outcome_of (r : result bool) : outcome :=
  match r with
  | Ok true => Completed
  | Ok false => Running
  | Raise (SystemExit code) => Exited code
  | Raise e => Uncaught e
  end.

Definition initial_world : world := World [] [] [].

Definition main (cfg : config) (mtime : string) (fuel : nat) : outcome * world :=
  let body :=
    f_write (Bytes _HEADER);;
    main_pulses (api_key cfg) mtime (do_notice cfg) fuel GStart in
  let '(r, w) := body initial_world in
  (outcome_of r, w).

End Program.

(** ** The documented data model

    The interface of the remote service as the specification words it: a
    pulse has an author name, a list of reference URLs and a sequence of
    indicators; an indicator has a value and a type tag. A JSON value is
    read into this model by [decode_pulse]; keys the script never looks at
    are ignored. *)

Record otx_indicator : Type := OtxIndicator {
  i_indicator : string;
  i_type : string
}.

Record otx_pulse : Type := OtxPulse {
  p_author_name : string;
  p_references : list string;
  p_indicators : list otx_indicator
}.

Definition as_str (j : json) : option string :=
  match j with
  | JStr s => Some s
  | _ => None
  end.

Definition as_arr (j : json) : option (list json) :=
  match j with
  | JArr l => Some l
  | _ => None
  end.

Definition decode_indicator (j : json) : option otx_indicator :=
  match j with
  | JObj d =>
      value ← (d !! "indicator") ≫= as_str;
      ty ← (d !! "type") ≫= as_str;
      Some (OtxIndicator value ty)
  | _ => None
  end.

Fixpoint decode_list {A : Type} (f : json → option A) (l : list json)
    : option (list A) :=
  match l with
  | [] => Some []
  | j :: rest => x ← f j; xs ← decode_list f rest; Some (x :: xs)
  end.

Definition decode_pulse (j : json) : option otx_pulse :=
  match j with
  | JObj d =>
      author ← (d !! "author_name") ≫= as_str;
      refs ← ((d !! "references") ≫= as_arr) ≫= decode_list as_str;
      inds ← ((d !! "indicators") ≫= as_arr) ≫= decode_list decode_indicator;
      Some (OtxPulse author refs inds)
  | _ => None
  end.

(** The output vocabulary and the fixed table, as the specification lists
    them. *)
Inductive category : Type :=
  | ADDR
  | DOMAIN
  | EMAIL
  | URL
  | FILE_HASH
  | UNSUPPORTED.

Definition category_tag (c : category) : string :=
  match c with
  | ADDR => "Intel::ADDR"
  | DOMAIN => "Intel::DOMAIN"
  | EMAIL => "Intel::EMAIL"
  | URL => "Intel::URL"
  | FILE_HASH => "Intel::FILE_HASH"
  | UNSUPPORTED => "Unsupported"
  end.

Definition is_unsupported (c : category) : bool :=
  match c with
  | UNSUPPORTED => true
  | _ => false
  end.

Definition spec_table : list (list string * category) :=
  [ (["IPv4"; "IPv6"], ADDR);
    (["domain"; "hostname"], DOMAIN);
    (["email"], EMAIL);
    (["URL"; "URI"], URL);
    (["FileHash-MD5"; "FileHash-SHA1"; "FileHash-SHA256"], FILE_HASH);
    (["CVE"; "Mutex"; "CIDR"], UNSUPPORTED) ].

Definition spec_category (t : string) : option category :=
  snd <$> List.find (fun row => bool_decide (t ∈ row.1)) spec_table.

(** The record of a retained indicator, as the specification words it: five
    fields joined with tabs, ended by one newline. *)
Definition spec_url (p : otx_pulse) : string :=
  match p_references p with
  | u :: _ => u
  | [] => fallback_url
  end.

Definition spec_line (notice : string) (p : otx_pulse) (i : otx_indicator)
    (c : category) : string :=
  i_indicator i +:+ TAB +:+ category_tag c +:+ TAB +:+ p_author_name p +:+ TAB +:+
  spec_url p +:+ TAB +:+ notice +:+ NL.

Definition spec_record (notice : string) (p : otx_pulse) (i : otx_indicator)
    : option string :=
  match spec_category (i_type i) with
  | Some c => if is_unsupported c then None else Some (spec_line notice p i c)
  | None => None
  end.

Definition spec_records (notice : string) (p : otx_pulse) : list string :=
  omap (spec_record notice p) (p_indicators p).

Definition known_type (i : otx_indicator) : bool :=
  bool_decide (is_Some (spec_category (i_type i))).

Definition known_types (p : otx_pulse) : bool :=
  forallb known_type (p_indicators p).

(** Lines that the ASCII codec accepts. *)
Definition ascii_only (lines : list string) : bool := forallb is_ascii lines.

(** ** Small string tools *)

Fixpoint starts_with (p s : string) : bool :=
  match p with
  | EmptyString => true
  | String a p' =>
      match s with
      | EmptyString => false
      | String b s' => Ascii.eqb a b && starts_with p' s'
      end
  end.

Fixpoint has_infix (p s : string) : bool :=
  starts_with p s ||
  match s with
  | EmptyString => false
  | String _ s' => has_infix p s'
  end.

(** ** Concrete scenarios *)

Definition obj (items : list (string * json)) : json := JObj (list_to_map items).

Definition page (results : list json) (next : json) : response :=
  Response 200 (Some (obj [("results", JArr results); ("next", next)])).

Definition demo_cfg : config := Config "KEY" 30 "otx.dat" "T".

Definition ipv4_indicator : json :=
  obj [("indicator", JStr "1.2.3.4"); ("type", JStr "IPv4")].

(** The pulse of the round-trip scenario. *)
Definition demo_pulse : json :=
  obj [ ("author_name", JStr "X");
        ("references", JArr [JStr "http://r"]);
        ("indicators",
          JArr [ obj [("indicator", JStr "1.2.3.4"); ("type", JStr "IPv4")];
                 obj [("indicator", JStr "CVE-2020-1"); ("type", JStr "CVE")] ]) ].

(** A pulse with an indicator whose type tag the table does not list. *)
Definition yara_pulse : json :=
  obj [ ("author_name", JStr "X");
        ("references", JArr []);
        ("indicators",
          JArr [ obj [("indicator", JStr "rule r {}"); ("type", JStr "YARA")] ]) ].

(** A pulse with no reference at all, one whose references field is the
    empty string, and one without the field. *)
Definition empty_refs_pulse : json :=
  obj [ ("author_name", JStr "X"); ("references", JArr []);
        ("indicators", JArr [ipv4_indicator]) ].

Definition empty_string_refs_pulse : json :=
  obj [ ("author_name", JStr "X"); ("references", JStr EmptyString);
        ("indicators", JArr [ipv4_indicator]) ].

Definition no_refs_pulse : json :=
  obj [ ("author_name", JStr "X"); ("indicators", JArr [ipv4_indicator]) ].

(** One page holding the pulse of the round-trip scenario. *)
Definition demo_server : nat → request → option response := fun n _ =>
  match n with
  | O => Some (page [demo_pulse] JNull)
  | _ => None
  end.

(** Two pages: the first links to the second, the second ends the chain. *)
Definition two_pages_server : nat → request → option response := fun n _ =>
  match n with
  | O => Some (page [demo_pulse; yara_pulse] (JStr "http://otx/page2"))
  | S O => Some (page [empty_refs_pulse] JNull)
  | _ => None
  end.

(** Every request is answered 200. *)
Definition yara_server : nat → request → option response := fun _ _ =>
  Some (page [yara_pulse] JNull).

Definition no_refs_server : nat → request → option response := fun _ _ =>
  Some (page [no_refs_pulse] JNull).

(** Every request is answered with the given status and no body. *)
Definition status_server (status : Z) : nat → request → option response := fun _ _ =>
  Some (Response status None).

(** ** Vocabulary of the statements *)

(** The two requests [_get] can send. *)
Definition initial_request (key mtime : string) (limit : Z) : request :=
  Request (JStr _URL) [("X-OTX-API-KEY", key)]
    (Some [("limit", JNum limit); ("modified_since", JStr mtime)]).

Definition next_page_request (key : string) (next_request : json) : request :=
  Request next_request [("X-OTX-API-KEY", key)] None.

Definition request_of (key mtime : string) (limit : Z) (next_request : json) : request :=
  if py_eq_empty_str next_request then initial_request key mtime limit
  else next_page_request key next_request.

(** The process state after one more request, one more printed line, or
    with another file content. *)
Definition logged (w : world) (rq : request) (answer : option response) : world :=
  World (sent w ++ [(rq, answer)]) (stdout w) (written w).

Definition printed (w : world) (msg : string) : world :=
  World (sent w) (stdout w ++ [msg]) (written w).

Definition with_written (w : world) (x : list string) : world :=
  World (sent w) (stdout w) x.

(** The request log and the standard output are the same in both states. *)
Definition frame (w w' : world) : Prop :=
  sent w' = sent w ∧ stdout w' = stdout w.

Definition msg_403 : string := "An invalid API key was specified.".
Definition msg_400 : string := "An invalid request was made.".

(** [line] is what the writer emits for some indicator of [pulse]. *)
Definition record_of (notice : string) (pulse : json) (line : string) : Prop :=
  ∃ indicator fields,
    build_fields notice pulse indicator = Ok (Some fields) ∧
    str_join TAB fields = Ok line.

(** The header, byte by byte. *)
Definition header_bytes : list nat :=
  [ 35; 102; 105; 101; 108; 100; 115; 9;
    105; 110; 100; 105; 99; 97; 116; 111; 114; 9;
    105; 110; 100; 105; 99; 97; 116; 111; 114; 95; 116; 121; 112; 101; 9;
    109; 101; 116; 97; 46; 115; 111; 117; 114; 99; 101; 9;
    109; 101; 116; 97; 46; 117; 114; 108; 9;
    109; 101; 116; 97; 46; 100; 111; 95; 110; 111; 116; 105; 99; 101; 10 ]%nat.

(** The round-trip scenario in the documented data model, and its line. *)
Definition demo_pulse_model : otx_pulse :=
  OtxPulse "X" ["http://r"]
    [OtxIndicator "1.2.3.4" "IPv4"; OtxIndicator "CVE-2020-1" "CVE"].

Definition demo_line (notice : string) : string :=
  "1.2.3.4" +:+ TAB +:+ "Intel::ADDR" +:+ TAB +:+ "X" +:+ TAB +:+ "http://r" +:+ TAB +:+
  notice +:+ NL.

(** Statuses: the ones [_get] has no branch for, the two fatal ones, 200. *)
Definition unhandled_status (r : response) : Prop :=
  status_code r ≠ 200 ∧ status_code r ≠ 403 ∧ status_code r ≠ 400.

Definition fatal (a : option response) : bool :=
  match a with
  | Some r => (status_code r =? 403) || (status_code r =? 400)
  | None => false
  end.

Definition is_200 (a : option response) : bool :=
  match a with
  | Some r => status_code r =? 200
  | None => false
  end.

Definition fatal_message (r : response) : string :=
  if status_code r =? 403 then msg_403 else msg_400.

Definition raised {A : Type} (r : result A) : option exn :=
  match r with
  | Ok _ => None
  | Raise e => Some e
  end.

(** What a stretch of the run did to the request log and to the standard
    output: either no fatal status came back and nothing was printed, or
    the last request got one, its message was printed and [sys.exit(1)]
    was raised. *)
Definition log_step (w : world) (res_exit : option exn) (w' : world) : Prop :=
  ∃ new, sent w' = sent w ++ new ∧
    ((Forall (fun x => fatal x.2 = false) new ∧ stdout w' = stdout w) ∨
     (∃ pre rq r,
        new = pre ++ [(rq, Some r)] ∧
        Forall (fun x => fatal x.2 = false) pre ∧
        fatal (Some r) = true ∧
        res_exit = Some (SystemExit 1) ∧
        stdout w' = stdout w ++ [fatal_message r])).

(** Every request sent between the two states was answered 200. *)
Definition all_200 (w w' : world) : Prop :=
  ∃ new, sent w' = sent w ++ new ∧ Forall (fun x => is_200 x.2 = true) new.

(** ** Vocabulary of the further properties *)

(** A page answered 200 with a list of results and a [next] field. *)
Definition page_ok (server : nat → request → option response)
    (n : nat) (rq : request) (d : gmap string json) (rs : list json) (nx : json) : Prop :=
  server n rq = Some (Response 200 (Some (JObj d))) ∧
  d !! "results" = Some (JArr rs) ∧
  d !! "next" = Some nx.

(** The pages that follow a page whose [next] is [prev]: none when [prev]
    is false as a condition; otherwise [prev] is true and the request to it
    is answered with the next page of the chain. *)
Fixpoint chain (server : nat → request → option response) (key : string)
    (n : nat) (prev : json)
    (rest : list (gmap string json * list json * json)) : Prop :=
  match rest with
  | [] => py_bool prev = false
  | (d, rs, nx) :: rest' =>
      py_bool prev = true ∧
      page_ok server n (next_page_request key prev) d rs nx ∧
      chain server key (S n) nx rest'
  end.

Fixpoint logged_pages (key : string) (w : world) (rq : request)
    (d : gmap string json) (nx : json)
    (rest : list (gmap string json * list json * json)) : world :=
  let w' := logged w rq (Some (Response 200 (Some (JObj d)))) in
  match rest with
  | [] => w'
  | (d', _, nx') :: rest' => logged_pages key w' (next_page_request key nx) d' nx' rest'
  end.

Definition all_results (rs : list json)
    (rest : list (gmap string json * list json * json)) : list json :=
  rs ++ concat ((fun p => p.1.2) <$> rest).

Definition three_pages_server : nat → request → option response := fun n _ =>
  match n with
  | O => Some (page [demo_pulse] (JStr "http://otx/page2"))
  | S O => Some (page [] (JStr "http://otx/page3"))
  | S (S O) => Some (page [empty_refs_pulse; yara_pulse] (JStr EmptyString))
  | _ => None
  end.

Definition next_of (r : response) : option json :=
  match body r with
  | Some (JObj d) => d !! "next"
  | _ => None
  end.

(** The first request of a log is the initial one; every later request goes
    to the [next] link of the page that answered the request before it, a
    page answered 200 whose link is true as a condition. *)
Definition request_log_ok (key mtime : string) (limit : Z)
    (log : list (request * option response)) : Prop :=
  ∀ i rq a, log !! i = Some (rq, a) →
    match i with
    | O => rq = initial_request key mtime limit
    | S i' =>
        ∃ rq' r nx,
          log !! i' = Some (rq', Some r) ∧ status_code r = 200 ∧
          next_of r = Some nx ∧ py_bool nx = true ∧
          rq = next_page_request key nx
    end.

(** What the log tells about a suspended generator. *)
Definition gen_inv (key mtime : string) (limit : Z) (g : gen_state)
    (log : list (request * option response)) : Prop :=
  request_log_ok key mtime limit log ∧
  match g with
  | GStart => log = []
  | GFirst _ j | GPage _ j =>
      ∃ rq r, last log = Some (rq, Some r) ∧ status_code r = 200 ∧ body r = Some j
  | GWhile nx =>
      ∃ rq r, last log = Some (rq, Some r) ∧ status_code r = 200 ∧ next_of r = Some nx
  end.

(** How [main]'s loop ends when the generator ends with [e]. *)
Definition result_of_end (e : gen_end) : result bool :=
  match e with
  | Exhausted => Ok true
  | Raised ex => Raise ex
  | Suspended _ => Ok false
  end.

(** One page with the round-trip pulse, then a refusal. *)
Definition forbidden_second_page_server : nat → request → option response := fun n _ =>
  match n with
  | O => Some (page [demo_pulse] (JStr "http://otx/page2"))
  | _ => Some (Response 403 None)
  end.


(** The two errors of a lookup or an iteration, and the four errors the
    record writer can end on. *)
Definition lookup_error (e : exn) : Prop := e = KeyError ∨ e = TypeError.

Definition writer_error (e : exn) : Prop :=
  e = KeyError ∨ e = TypeError ∨ e = UnicodeDecodeError ∨ e = UnicodeEncodeError.

Definition tab_char : Ascii.ascii := Ascii.ascii_of_nat 9.
Definition nl_char : Ascii.ascii := Ascii.ascii_of_nat 10.

Fixpoint count_char (c : Ascii.ascii) (s : string) : nat :=
  match s with
  | EmptyString => 0
  | String a s' => (if Ascii.eqb a c then 1 else 0) + count_char c s'
  end.

(** [s.split(c)]: the columns a reader of the file gets from a line. *)
Fixpoint split_on (c : Ascii.ascii) (s : string) : list string :=
  match s with
  | EmptyString => [EmptyString]
  | String a s' =>
      if Ascii.eqb a c then EmptyString :: split_on c s'
      else match split_on c s' with
           | x :: xs => String a x :: xs
           | [] => [String a EmptyString]
           end
  end.

Definition cve_only_pulse : json :=
  obj [("indicators",
        JArr [obj [("type", JStr "CVE")]; obj [("type", JStr "Mutex"); ("x", JNull)]])].

Definition null_author_pulse : json :=
  obj [ ("author_name", JNull); ("references", JArr []);
        ("indicators", JArr [ipv4_indicator]) ].

(** A service whose every answer is a page that links on, with pulses the
    writer accepts. *)
Definition endless (server : nat → request → option response) (notice : string) : Prop :=
  ∀ n rq, ∃ d rs nx,
    server n rq = Some (Response 200 (Some (JObj d))) ∧
    d !! "results" = Some (JArr rs) ∧
    d !! "next" = Some nx ∧ py_bool nx = true ∧
    Forall (fun pulse => ∀ w, ∃ w', main_pulse notice pulse w = (Ok (), w')) rs.

(** The generator states such a service leads to. *)
Definition links_on (notice : string) (g : gen_state) : Prop :=
  match g with
  | GStart => True
  | GFirst rest j | GPage rest j =>
      Forall (fun pulse => ∀ w, ∃ w', main_pulse notice pulse w = (Ok (), w')) rest ∧
      ∃ nx, py_getitem j "next" = Ok nx ∧ py_bool nx = true
  | GWhile nx => py_bool nx = true
  end.

Definition loop_server : nat → request → option response := fun _ _ =>
  Some (page [cve_only_pulse] (JStr "http://otx/page1")).

(** The exception a response ends the fetch with, by itself: none for a 200
    with a JSON body. *)
Definition stop_reason (a : option response) : option exn :=
  match a with
  | None => Some RequestException
  | Some r =>
      if status_code r =? 200 then
        match body r with
        | Some _ => None
        | None => Some ValueError
        end
      else if status_code r =? 403 then Some (SystemExit 1)
      else if status_code r =? 400 then Some (SystemExit 1)
      else Some TypeError
  end.

(** A stretch of the run sent [new]: no response in it stops the fetch, or
    the last one does and the stretch ended on its exception. *)
Definition stops_at_last {A : Type} (new : list (request * option response))
    (res : result A) : Prop :=
  Forall (fun x => stop_reason x.2 = None) new ∨
  ∃ pre rq a e,
    new = pre ++ [(rq, a)] ∧ Forall (fun x => stop_reason x.2 = None) pre ∧
    stop_reason a = Some e ∧ res = Raise e.

Definition not_json_server : nat → request → option response := fun n _ =>
  match n with
  | O => Some (page [demo_pulse] (JStr "http://otx/page2"))
  | _ => Some (Response 200 None)
  end.





(** * Properties *)

(** ** The type table *)

Lemma list_to_map_find {V : Type} (l : list (string * V)) (k : string) :
  (list_to_map l : gmap string V) !! k
  = snd <$> List.find (fun kv => bool_decide (kv.1 = k)) l.
Proof.
  induction l as [|[k' v] l IH]; simpl.
  - apply lookup_empty.
  - rewrite lookup_insert. case_bool_decide; case_decide; try congruence; done.
Qed.

Lemma _MAP_spec (t : string) : _MAP !! t = category_tag <$> spec_category t.
Proof.
  unfold _MAP. rewrite list_to_map_find. unfold spec_category, _MAP_items, spec_table.
  cbn [List.find fst snd].
  repeat (case_bool_decide; [subst t; vm_compute; reflexivity|]).
  assert (Hnot : t ∉ _MAP_items.*1).
  { cbn. intros Hin.
    repeat (apply elem_of_cons in Hin as [->|Hin]; [congruence|]).
    by apply elem_of_nil in Hin. }
  assert (Hrow : forall row, Forall (fun x => x ∈ _MAP_items.*1) row -> t ∉ row).
  { intros row Hall Hin. apply Hnot. by eapply (proj1 (Forall_forall _ _) Hall). }
  repeat (case_bool_decide; [exfalso; eapply Hrow; [|eassumption]; compute_done|]).
  reflexivity.
Qed.

Lemma supported_tag ty bro_type :
  map_indicator_type ty = Ok bro_type → bro_type ≠ "Unsupported" →
  ∃ t c, ty = JStr t ∧ spec_category t = Some c ∧ is_unsupported c = false ∧
         bro_type = category_tag c.
Proof.
  destruct ty as [| | |t| |]; try discriminate. simpl.
  rewrite _MAP_spec. destruct (spec_category t) as [c|] eqn:Hc; [|discriminate].
  intros [= <-] Hne. exists t, c.
  split; [done|]. split; [done|]. split; [|done].
  destruct c; try reflexivity. exfalso. by apply Hne.
Qed.

(** ** Equations of the program, one per program point *)

Lemma _get_unfold server key mtime limit next_request w :
  _get server key mtime limit next_request w =
  let rq := request_of key mtime limit next_request in
  let answer := server (length (sent w)) rq in
  let w' := logged w rq answer in
  match answer with
  | None => (Raise RequestException, w')
  | Some r =>
      if status_code r =? 200 then
        match body r with
        | Some j => (Ok j, w')
        | None => (Raise ValueError, w')
        end
      else if status_code r =? 403 then (Raise (SystemExit 1), printed w' msg_403)
      else if status_code r =? 400 then (Raise (SystemExit 1), printed w' msg_400)
      else (Ok JNull, w')
  end.
Proof.
  unfold _get, request_of, mbind, M_bind, requests_get.
  destruct (py_eq_empty_str next_request); cbn zeta;
    unfold initial_request, next_page_request;
    match goal with |- context [server ?n ?rq] => destruct (server n rq) as [r|] end;
    try reflexivity.
  all: destruct (status_code r =? 200); [unfold r_json; destruct (body r); reflexivity|].
  all: destruct (status_code r =? 403); [reflexivity|].
  all: destruct (status_code r =? 400); reflexivity.
Qed.

Lemma _get_200 server key mtime limit next_request w j :
  server (length (sent w)) (request_of key mtime limit next_request)
    = Some (Response 200 (Some j)) →
  _get server key mtime limit next_request w
    = (Ok j, logged w (request_of key mtime limit next_request)
               (Some (Response 200 (Some j)))).
Proof. intros H. rewrite _get_unfold. cbn zeta. rewrite H. reflexivity. Qed.

Lemma _get_unhandled server key mtime limit next_request w r :
  server (length (sent w)) (request_of key mtime limit next_request) = Some r →
  unhandled_status r →
  _get server key mtime limit next_request w
    = (Ok JNull, logged w (request_of key mtime limit next_request) (Some r)).
Proof.
  intros Hs (H200 & H403 & H400). rewrite _get_unfold. cbn zeta. rewrite Hs.
  apply Z.eqb_neq in H200, H403, H400. by rewrite H200, H403, H400.
Qed.

Lemma gen_step_fetch server key mtime limit next_request w
    (k : list json → json → gen_state) :
  (json_data ← _get server key mtime limit next_request;
   results ← lift (py_getitem json_data "results");
   items ← lift (py_iter results);
   mret (Tau (k items json_data))) w =
  match _get server key mtime limit next_request w with
  | (Ok json_data, w') =>
      match py_getitem json_data "results" with
      | Ok results =>
          match py_iter results with
          | Ok items => (Ok (Tau (k items json_data)), w')
          | Raise e => (Raise e, w')
          end
      | Raise e => (Raise e, w')
      end
  | (Raise e, w') => (Raise e, w')
  end.
Proof.
  unfold mbind, M_bind, lift.
  destruct (_get server key mtime limit next_request w) as [[json_data|e] w']; [|reflexivity].
  destruct (py_getitem json_data "results") as [results|e]; [|reflexivity].
  destruct (py_iter results); reflexivity.
Qed.

Lemma gen_step_next (d : json) (w : world) :
  (next_request ← lift (py_getitem d "next"); mret (Tau (GWhile next_request))) w =
  match py_getitem d "next" with
  | Ok next_request => (Ok (Tau (GWhile next_request)), w)
  | Raise e => (Raise e, w)
  end.
Proof. unfold mbind, M_bind, lift. destruct (py_getitem d "next"); reflexivity. Qed.

Lemma iter_pulses_from_S server key mtime limit fuel g w :
  iter_pulses_from server key mtime limit (S fuel) g w =
  match gen_step server key mtime limit g w with
  | (Ok (Yield result g'), w') =>
      let '(ys, e, w'') := iter_pulses_from server key mtime limit fuel g' w' in
      (result :: ys, e, w'')
  | (Ok (Tau g'), w') => iter_pulses_from server key mtime limit fuel g' w'
  | (Ok Stop, w') => ([], Exhausted, w')
  | (Raise e, w') => ([], Raised e, w')
  end.
Proof. reflexivity. Qed.

Lemma main_pulses_S server key mtime notice fuel g w :
  main_pulses server key mtime notice (S fuel) g w =
  match gen_step server key mtime 20 g w with
  | (Ok (Yield pulse g'), w') =>
      match main_pulse notice pulse w' with
      | (Ok _, w'') => main_pulses server key mtime notice fuel g' w''
      | (Raise e, w'') => (Raise e, w'')
      end
  | (Ok (Tau g'), w') => main_pulses server key mtime notice fuel g' w'
  | (Ok Stop, w') => (Ok true, w')
  | (Raise e, w') => (Raise e, w')
  end.
Proof.
  cbn [main_pulses]. unfold mbind at 1, M_bind at 1.
  destruct (gen_step server key mtime 20 g w) as [[[pulse g'|g'|]|e] w']; reflexivity.
Qed.

Lemma main_pulse_unfold notice pulse w :
  main_pulse notice pulse w =
  match py_getitem pulse "indicators" with
  | Ok indicators =>
      match py_iter indicators with
      | Ok items => main_indicators notice pulse items w
      | Raise e => (Raise e, w)
      end
  | Raise e => (Raise e, w)
  end.
Proof.
  unfold main_pulse, mbind, M_bind, lift.
  destruct (py_getitem pulse "indicators") as [indicators|]; [|reflexivity].
  destruct (py_iter indicators); reflexivity.
Qed.

Lemma main_indicators_cons notice pulse indicator rest w :
  main_indicators notice pulse (indicator :: rest) w =
  match main_indicator notice pulse indicator w with
  | (Ok _, w') => main_indicators notice pulse rest w'
  | (Raise e, w') => (Raise e, w')
  end.
Proof. reflexivity. Qed.

Lemma main_unfold server cfg mtime fuel :
  main server cfg mtime fuel =
  (outcome_of (fst (main_pulses server (api_key cfg) mtime (do_notice cfg) fuel GStart
                      (World [] [] [_HEADER]))),
   snd (main_pulses server (api_key cfg) mtime (do_notice cfg) fuel GStart
          (World [] [] [_HEADER]))).
Proof.
  unfold main, mbind, M_bind, f_write, initial_world. cbn [sent stdout written app].
  by destruct (main_pulses _ _ _ _ _ _ _) as [[b|e] w].
Qed.

(** ** The record builder *)

Lemma build_fields_type (notice : string) (pulse : json) (d : gmap string json) (ty : json) :
  d !! "type" = Some ty ->
  build_fields notice pulse (JObj d) =
    bro_type ← map_indicator_type ty;
    if String.eqb bro_type "Unsupported" then Ok None
    else
      url ← try_except_IndexError (first_reference pulse) (Ok (JStr fallback_url));
      value ← py_getitem (JObj d) "indicator";
      author ← py_getitem pulse "author_name";
      Ok (Some [value; JStr bro_type; author; url; JStr (notice +:+ NL)]).
Proof. intros H. unfold build_fields. simpl. rewrite H. reflexivity. Qed.

Lemma build_fields_inv notice pulse indicator fields :
  build_fields notice pulse indicator = Ok (Some fields) →
  ∃ ty bro_type url value author,
    py_getitem indicator "type" = Ok ty ∧
    map_indicator_type ty = Ok bro_type ∧
    bro_type ≠ "Unsupported" ∧
    try_except_IndexError (first_reference pulse) (Ok (JStr fallback_url)) = Ok url ∧
    py_getitem indicator "indicator" = Ok value ∧
    py_getitem pulse "author_name" = Ok author ∧
    fields = [value; JStr bro_type; author; url; JStr (notice +:+ NL)].
Proof.
  unfold build_fields, mbind, result_bind.
  destruct (py_getitem indicator "type") as [ty|] eqn:Hty; [|discriminate].
  destruct (map_indicator_type ty) as [bro_type|] eqn:Hm; [|discriminate].
  destruct (String.eqb_spec bro_type "Unsupported") as [|Hne]; [discriminate|].
  destruct (try_except_IndexError _ _) as [url|] eqn:Hurl; [|discriminate].
  destruct (py_getitem indicator "indicator") as [value|] eqn:Hv; [|discriminate].
  destruct (py_getitem pulse "author_name") as [author|] eqn:Ha; [|discriminate].
  intros [= <-]. exists ty, bro_type, url, value, author. repeat split; done.
Qed.

Lemma main_indicator_skip notice pulse indicator w :
  build_fields notice pulse indicator = Ok None ->
  main_indicator notice pulse indicator w = (Ok (), w).
Proof. intros H. unfold main_indicator, lift, mbind, M_bind. rewrite H. reflexivity. Qed.

Lemma main_indicator_raise notice pulse indicator e w :
  build_fields notice pulse indicator = Raise e ->
  main_indicator notice pulse indicator w = (Raise e, w).
Proof. intros H. unfold main_indicator, lift, mbind, M_bind. rewrite H. reflexivity. Qed.

Lemma unsupported_skipped (t notice : string) (pulse : json)
    (d : gmap string json) (w : world) :
  map_indicator_type (JStr t) = Ok "Unsupported" →
  build_fields notice pulse (JObj (<["type" := JStr t]> d)) = Ok None ∧
  main_indicator notice pulse (JObj (<["type" := JStr t]> d)) w = (Ok (), w).
Proof.
  intros Hm.
  assert (Hb : build_fields notice pulse (JObj (<["type" := JStr t]> d)) = Ok None).
  { erewrite build_fields_type by apply lookup_insert_eq. rewrite Hm. reflexivity. }
  split; [exact Hb | by apply main_indicator_skip].
Qed.

Lemma first_reference_index_error (pulse : json) :
  first_reference pulse = Raise IndexError ↔
  py_getitem pulse "references" = Ok (JArr []) ∨
  py_getitem pulse "references" = Ok (JStr EmptyString).
Proof.
  unfold first_reference, mbind, result_bind. split.
  - destruct pulse as [| | | | |d]; try discriminate. cbn [py_getitem].
    destruct (d !! "references") as [[| | |s|l|d']|]; simpl; try discriminate.
    + destruct s; [by right|discriminate].
    + destruct l; [by left|discriminate].
  - intros [->| ->]; reflexivity.
Qed.

Lemma build_fields_no_references notice (d : gmap string json) indicator ty bro_type :
  d !! "references" = None →
  py_getitem indicator "type" = Ok ty →
  map_indicator_type ty = Ok bro_type →
  bro_type ≠ "Unsupported" →
  build_fields notice (JObj d) indicator = Raise KeyError.
Proof.
  intros Hd Hty Hm Hne. unfold build_fields, mbind, result_bind.
  rewrite Hty, Hm. apply String.eqb_neq in Hne. rewrite Hne.
  unfold first_reference, mbind, result_bind. cbn [py_getitem]. rewrite Hd.
  reflexivity.
Qed.

Lemma as_strs_inv fields ss :
  as_strs fields = Ok ss → fields = JStr <$> ss.
Proof.
  revert ss. induction fields as [|j rest IH]; intros ss; simpl.
  - by intros [= <-].
  - destruct j; try discriminate.
    unfold mbind, result_bind. destruct (as_strs rest) as [ss'|]; [|discriminate].
    intros [= <-]. simpl. f_equal. by apply IH.
Qed.

Lemma str_join_inv sep fields line :
  str_join sep fields = Ok line →
  ∃ ss, as_strs fields = Ok ss ∧ line = String.concat sep ss.
Proof.
  unfold str_join, mbind, result_bind.
  destruct (as_strs fields) as [ss|]; [|discriminate].
  destruct (last ss) as [notice|]; [destruct (is_ascii notice)|];
    intros [= <-]; by exists ss.
Qed.

Lemma main_indicator_unfold notice pulse indicator w :
  main_indicator notice pulse indicator w =
  match build_fields notice pulse indicator with
  | Ok (Some fields) =>
      match str_join TAB fields with
      | Ok data =>
          if is_ascii data
          then (Ok (), World (sent w) (stdout w) (written w ++ [data]))
          else (Raise UnicodeEncodeError, w)
      | Raise e => (Raise e, w)
      end
  | Ok None => (Ok (), w)
  | Raise e => (Raise e, w)
  end.
Proof.
  unfold main_indicator, mbind, M_bind, lift.
  destruct (build_fields notice pulse indicator) as [[fields|]|e]; try reflexivity.
  all: destruct (str_join TAB fields) as [data|e]; reflexivity.
Qed.

(** ** What a run writes *)

Lemma main_indicator_written notice pulse indicator w r w' :
  main_indicator notice pulse indicator w = (r, w') →
  frame w w' ∧
  ∃ lines, written w' = written w ++ lines ∧ Forall (record_of notice pulse) lines.
Proof.
  rewrite main_indicator_unfold.
  destruct (build_fields notice pulse indicator) as [[fields|]|e] eqn:Hb.
  - destruct (str_join TAB fields) as [line|e] eqn:Hj.
    + destruct (is_ascii line).
      * intros [= <- <-]. split; [done|]. exists [line]. split; [done|].
        apply Forall_singleton. by exists indicator, fields.
      * intros [= <- <-]. split; [done|]. exists []. by rewrite app_nil_r.
    + intros [= <- <-]. split; [done|]. exists []. by rewrite app_nil_r.
  - intros [= <- <-]. split; [done|]. exists []. by rewrite app_nil_r.
  - intros [= <- <-]. split; [done|]. exists []. by rewrite app_nil_r.
Qed.

Lemma main_indicators_written notice pulse indicators w r w' :
  main_indicators notice pulse indicators w = (r, w') →
  frame w w' ∧
  ∃ lines, written w' = written w ++ lines ∧ Forall (record_of notice pulse) lines.
Proof.
  revert w. induction indicators as [|indicator rest IH]; intros w.
  - intros [= <- <-]. split; [done|]. exists []. by rewrite app_nil_r.
  - rewrite main_indicators_cons.
    destruct (main_indicator notice pulse indicator w) as [[[]|e] w1] eqn:H1;
      apply main_indicator_written in H1 as [[Hs1 Ho1] (l1 & Hw1 & Hl1)].
    + intros H2. apply IH in H2 as [[Hs2 Ho2] (l2 & Hw2 & Hl2)].
      split; [split; congruence|].
      exists (l1 ++ l2). split; [by rewrite Hw2, Hw1, app_assoc|by apply Forall_app].
    + intros [= <- <-]. split; [done|]. by exists l1.
Qed.

Lemma main_pulse_written notice pulse w r w' :
  main_pulse notice pulse w = (r, w') →
  frame w w' ∧
  ∃ lines, written w' = written w ++ lines ∧ Forall (record_of notice pulse) lines.
Proof.
  rewrite main_pulse_unfold.
  destruct (py_getitem pulse "indicators") as [indicators|].
  - destruct (py_iter indicators) as [items|].
    + apply main_indicators_written.
    + intros [= <- <-]. split; [done|]. exists []. by rewrite app_nil_r.
  - intros [= <- <-]. split; [done|]. exists []. by rewrite app_nil_r.
Qed.

Lemma _get_written server key mtime limit next_request w r w' :
  _get server key mtime limit next_request w = (r, w') → written w' = written w.
Proof.
  rewrite _get_unfold. cbn zeta.
  destruct (server _ _) as [resp|]; [|by intros [= <- <-]].
  destruct (status_code resp =? 200); [destruct (body resp); by intros [= <- <-]|].
  destruct (status_code resp =? 403); [by intros [= <- <-]|].
  destruct (status_code resp =? 400); by intros [= <- <-].
Qed.

Lemma gen_step_written server key mtime limit g w r w' :
  gen_step server key mtime limit g w = (r, w') → written w' = written w.
Proof.
  destruct g as [|[|result rest] initial_results|next_request|[|result rest] json_data];
    cbn [gen_step].
  - rewrite gen_step_fetch.
    destruct (_get _ _ _ _ _ w) as [[j|e] w1] eqn:Hg; apply _get_written in Hg;
      [|by intros [= <- <-]].
    destruct (py_getitem j "results") as [results|]; [|by intros [= <- <-]].
    destruct (py_iter results); by intros [= <- <-].
  - rewrite gen_step_next. destruct (py_getitem _ _); by intros [= <- <-].
  - by intros [= <- <-].
  - destruct (py_bool next_request); [|by intros [= <- <-]].
    rewrite gen_step_fetch.
    destruct (_get _ _ _ _ _ w) as [[j|e] w1] eqn:Hg; apply _get_written in Hg;
      [|by intros [= <- <-]].
    destruct (py_getitem j "results") as [results|]; [|by intros [= <- <-]].
    destruct (py_iter results); by intros [= <- <-].
  - rewrite gen_step_next. destruct (py_getitem _ _); by intros [= <- <-].
  - by intros [= <- <-].
Qed.

Lemma main_pulses_written server key mtime notice fuel g w r w' :
  main_pulses server key mtime notice fuel g w = (r, w') →
  ∃ lines, written w' = written w ++ lines ∧
           Forall (fun line => ∃ pulse, record_of notice pulse line) lines.
Proof.
  revert g w. induction fuel as [|fuel IH]; intros g w.
  - intros [= <- <-]. exists []. by rewrite app_nil_r.
  - rewrite main_pulses_S.
    destruct (gen_step server key mtime 20 g w) as [[[pulse g'|g'|]|e] w1] eqn:Hg;
      apply gen_step_written in Hg.
    + destruct (main_pulse notice pulse w1) as [[[]|e] w2] eqn:Hp;
        apply main_pulse_written in Hp as [_ (l1 & Hw1 & Hl1)].
      * intros H. apply IH in H as (l2 & Hw2 & Hl2).
        exists (l1 ++ l2). split; [by rewrite Hw2, Hw1, Hg, app_assoc|].
        apply Forall_app. split; [|done].
        eapply Forall_impl; [exact Hl1|]. intros line Hline. by exists pulse.
      * intros [= <- <-]. exists l1. split; [congruence|].
        eapply Forall_impl; [exact Hl1|]. intros line Hline. by exists pulse.
    + intros H. apply IH in H as (l2 & Hw2 & Hl2). exists l2. split; [congruence|done].
    + intros [= <- <-]. exists []. by rewrite app_nil_r.
    + intros [= <- <-]. exists []. by rewrite app_nil_r.
Qed.

Lemma main_written server cfg mtime fuel :
  ∃ lines, written (snd (main server cfg mtime fuel)) = _HEADER :: lines ∧
           Forall (fun line => ∃ pulse, record_of (do_notice cfg) pulse line) lines.
Proof.
  rewrite main_unfold. cbn [snd].
  destruct (main_pulses _ _ _ _ _ _ _) as [r w] eqn:H.
  apply main_pulses_written in H as (lines & Hw & Hl).
  by exists lines.
Qed.

Lemma starts_with_app (p s : string) : starts_with p (p +:+ s) = true.
Proof.
  induction p as [|c p IH]; [reflexivity|]. simpl.
  by rewrite Ascii.eqb_refl, IH.
Qed.

Lemma has_infix_app (p a b : string) : has_infix p (a +:+ p +:+ b) = true.
Proof.
  induction a as [|c a IH].
  - change (EmptyString +:+ p +:+ b) with (p +:+ b).
    destruct (p +:+ b) eqn:E; simpl; rewrite <- E, starts_with_app; reflexivity.
  - simpl. rewrite IH. apply orb_true_r.
Qed.

Lemma record_not_header notice pulse line :
  record_of notice pulse line → line ≠ _HEADER.
Proof.
  intros (indicator & fields & Hb & Hj) ->.
  apply build_fields_inv in Hb
    as (ty & bro_type & url & value & author & _ & Hm & Hne & _ & _ & _ & ->).
  apply supported_tag in Hm as (t & c & _ & _ & Hc & ->); [|done].
  apply str_join_inv in Hj as (ss & Hss & Hj). symmetry in Hj.
  apply as_strs_inv in Hss.
  destruct ss as [|v [|b [|a [|u [|n [|]]]]]]; try discriminate.
  simpl in Hss. injection Hss as -> Hb -> -> Hn. subst b.
  assert (Hin : has_infix (TAB +:+ "Intel::") _HEADER = true).
  { rewrite <- Hj. cbn [String.concat].
    destruct c; try discriminate;
      [ exact (has_infix_app (TAB +:+ "Intel::") v ("ADDR" +:+ TAB +:+ a +:+ TAB +:+ u +:+ TAB +:+ n))
      | exact (has_infix_app (TAB +:+ "Intel::") v ("DOMAIN" +:+ TAB +:+ a +:+ TAB +:+ u +:+ TAB +:+ n))
      | exact (has_infix_app (TAB +:+ "Intel::") v ("EMAIL" +:+ TAB +:+ a +:+ TAB +:+ u +:+ TAB +:+ n))
      | exact (has_infix_app (TAB +:+ "Intel::") v ("URL" +:+ TAB +:+ a +:+ TAB +:+ u +:+ TAB +:+ n))
      | exact (has_infix_app (TAB +:+ "Intel::") v ("FILE_HASH" +:+ TAB +:+ a +:+ TAB +:+ u +:+ TAB +:+ n)) ]. }
  vm_compute in Hin. discriminate.
Qed.

(** ** Runs over pulses of the documented shape *)

Lemma _get_frame server key mtime limit next_request w x :
  _get server key mtime limit next_request (with_written w x) =
  (fst (_get server key mtime limit next_request w),
   with_written (snd (_get server key mtime limit next_request w)) x).
Proof.
  rewrite !_get_unfold. cbn zeta. cbn [with_written sent].
  destruct (server _ _) as [r|]; [|reflexivity].
  destruct (status_code r =? 200); [destruct (body r); reflexivity|].
  destruct (status_code r =? 403); [reflexivity|].
  destruct (status_code r =? 400); reflexivity.
Qed.

Lemma gen_step_frame server key mtime limit g w x :
  gen_step server key mtime limit g (with_written w x) =
  (fst (gen_step server key mtime limit g w),
   with_written (snd (gen_step server key mtime limit g w)) x).
Proof.
  destruct g as [|[|result rest] initial_results|next_request|[|result rest] json_data];
    cbn [gen_step]; try reflexivity.
  - rewrite !gen_step_fetch, _get_frame.
    destruct (_get _ _ _ _ _ w) as [[j|e] w1]; [|reflexivity]. cbn [fst snd].
    destruct (py_getitem j "results") as [results|]; [|reflexivity].
    destruct (py_iter results); reflexivity.
  - rewrite !gen_step_next. destruct (py_getitem _ _); reflexivity.
  - destruct (py_bool next_request); [|reflexivity].
    rewrite !gen_step_fetch, _get_frame.
    destruct (_get _ _ _ _ _ w) as [[j|e] w1]; [|reflexivity]. cbn [fst snd].
    destruct (py_getitem j "results") as [results|]; [|reflexivity].
    destruct (py_iter results); reflexivity.
  - rewrite !gen_step_next. destruct (py_getitem _ _); reflexivity.
Qed.

Lemma decode_indicator_inv j i :
  decode_indicator j = Some i →
  ∃ d, j = JObj d ∧ d !! "indicator" = Some (JStr (i_indicator i)) ∧
       d !! "type" = Some (JStr (i_type i)).
Proof.
  destruct j as [| | | | |d]; try discriminate. simpl.
  destruct (d !! "indicator") as [[| | |v| |]|] eqn:Hv; try discriminate.
  destruct (d !! "type") as [[| | |t| |]|] eqn:Ht; try discriminate.
  intros [= <-]. by exists d.
Qed.

Lemma decode_pulse_inv j p :
  decode_pulse j = Some p →
  ∃ d refs inds,
    j = JObj d ∧
    d !! "author_name" = Some (JStr (p_author_name p)) ∧
    d !! "references" = Some (JArr refs) ∧
    decode_list as_str refs = Some (p_references p) ∧
    d !! "indicators" = Some (JArr inds) ∧
    decode_list decode_indicator inds = Some (p_indicators p).
Proof.
  destruct j as [| | | | |d]; try discriminate. simpl.
  destruct (d !! "author_name") as [[| | |a| |]|] eqn:Ha; try discriminate.
  destruct (d !! "references") as [[| | | |refs|]|] eqn:Hrefs; try discriminate. simpl.
  destruct (decode_list as_str refs) as [rs|] eqn:Hr; try discriminate. simpl.
  destruct (d !! "indicators") as [[| | | |inds|]|] eqn:Hinds; try discriminate. simpl.
  destruct (decode_list decode_indicator inds) as [ins|] eqn:Hi; try discriminate.
  intros [= <-]. by exists d, refs, inds.
Qed.

Lemma first_reference_decoded (d : gmap string json) refs rs :
  d !! "references" = Some (JArr refs) →
  decode_list as_str refs = Some rs →
  try_except_IndexError (first_reference (JObj d)) (Ok (JStr fallback_url))
  = Ok (JStr (match rs with u :: _ => u | [] => fallback_url end)).
Proof.
  intros Hd Hr. unfold first_reference. cbn [py_getitem]. rewrite Hd.
  destruct refs as [|r refs]; simpl in *.
  - by injection Hr as <-.
  - destruct r; try discriminate. simpl in Hr.
    destruct (decode_list as_str refs); try discriminate. by injection Hr as <-.
Qed.

Lemma build_fields_decoded notice jp p ji i c :
  decode_pulse jp = Some p →
  decode_indicator ji = Some i →
  spec_category (i_type i) = Some c →
  build_fields notice jp ji =
    if is_unsupported c then Ok None
    else Ok (Some (JStr <$> [i_indicator i; category_tag c; p_author_name p;
                             spec_url p; notice +:+ NL])).
Proof.
  intros Hp Hi Hc.
  apply decode_pulse_inv in Hp as (dp & refs & inds & -> & Ha & Hrefs & Hrs & _ & _).
  apply decode_indicator_inv in Hi as (di & -> & Hv & Ht).
  erewrite build_fields_type by exact Ht.
  unfold map_indicator_type. rewrite _MAP_spec, Hc. cbn [fmap option_fmap option_map mbind result_bind].
  destruct c; cbn [category_tag String.eqb Ascii.eqb Bool.eqb is_unsupported]; try reflexivity.
  all: rewrite (first_reference_decoded _ _ _ Hrefs Hrs); cbn [py_getitem];
    rewrite Hv, Ha; reflexivity.
Qed.

Lemma is_ascii_app (a b : string) : is_ascii (a +:+ b) = is_ascii a && is_ascii b.
Proof.
  unfold is_ascii. induction a as [|x a IH]; [reflexivity|].
  change (String x a +:+ b) with (String x (a +:+ b)).
  cbn [String.list_ascii_of_string forallb]. by rewrite IH, andb_assoc.
Qed.

Lemma spec_line_ascii notice p i c :
  is_ascii (spec_line notice p i c) = true → is_ascii (notice +:+ NL) = true.
Proof.
  unfold spec_line. rewrite !is_ascii_app, !andb_true_iff.
  intros (_ & _ & _ & _ & _ & _ & _ & _ & Hn & Hnl). by rewrite Hn, Hnl.
Qed.

Lemma str_join_decoded notice p i c :
  is_ascii (notice +:+ NL) = true →
  str_join TAB (JStr <$> [i_indicator i; category_tag c; p_author_name p;
                          spec_url p; notice +:+ NL])
  = Ok (spec_line notice p i c).
Proof.
  intros Hn. unfold str_join. cbn [fmap list_fmap as_strs mbind result_bind last].
  by rewrite Hn.
Qed.

Lemma main_indicator_decoded notice jp p ji i w :
  decode_pulse jp = Some p →
  decode_indicator ji = Some i →
  is_Some (spec_category (i_type i)) →
  ascii_only (option_list (spec_record notice p i)) = true →
  main_indicator notice jp ji w =
    (Ok (), with_written w (written w ++ option_list (spec_record notice p i))).
Proof.
  intros Hp Hi [c Hc]. rewrite main_indicator_unfold.
  rewrite (build_fields_decoded notice jp p ji i c Hp Hi Hc).
  unfold spec_record. rewrite Hc.
  destruct (is_unsupported c).
  - intros _. simpl. rewrite app_nil_r. by destruct w.
  - unfold ascii_only. cbn [option_list forallb]. intros Hline.
    apply andb_prop in Hline as [Hline _].
    rewrite str_join_decoded by (by eapply spec_line_ascii). by rewrite Hline.
Qed.

Lemma main_indicators_decoded notice jp p inds ins w :
  decode_pulse jp = Some p →
  decode_list decode_indicator inds = Some ins →
  forallb known_type ins = true →
  ascii_only (omap (spec_record notice p) ins) = true →
  main_indicators notice jp inds w =
    (Ok (), with_written w (written w ++ omap (spec_record notice p) ins)).
Proof.
  intros Hp. revert ins w. induction inds as [|ji inds IH]; intros ins w Hd Hk Ha.
  - injection Hd as <-. simpl. rewrite app_nil_r. by destruct w.
  - simpl in Hd. destruct (decode_indicator ji) as [i|] eqn:Hi; [|discriminate].
    simpl in Hd. destruct (decode_list decode_indicator inds) as [ins'|]; [|discriminate].
    injection Hd as <-. cbn [forallb] in Hk. apply andb_prop in Hk as [Hk1 Hk2].
    apply bool_decide_eq_true in Hk1.
    assert (Hsplit : omap (spec_record notice p) (i :: ins')
                     = option_list (spec_record notice p i)
                       ++ omap (spec_record notice p) ins').
    { cbn [omap list_omap]. by destruct (spec_record notice p i). }
    rewrite Hsplit in Ha |- *. unfold ascii_only in Ha. rewrite forallb_app in Ha.
    apply andb_prop in Ha as [Ha1 Ha2].
    rewrite main_indicators_cons,
      (main_indicator_decoded notice jp p ji i w Hp Hi Hk1 Ha1).
    rewrite (IH ins' _ eq_refl Hk2 Ha2). cbn [with_written written sent stdout].
    by rewrite <- app_assoc.
Qed.

Lemma main_pulse_decoded notice jp p w :
  decode_pulse jp = Some p →
  known_types p = true →
  ascii_only (spec_records notice p) = true →
  main_pulse notice jp w =
    (Ok (), with_written w (written w ++ spec_records notice p)).
Proof.
  intros Hp Hk Ha. rewrite main_pulse_unfold.
  destruct (decode_pulse_inv _ _ Hp) as (d & refs & inds & -> & _ & _ & _ & Hinds & Hdec).
  cbn [py_getitem]. rewrite Hinds. cbn [py_iter].
  by apply main_indicators_decoded.
Qed.

Lemma main_pulses_decoded server key mtime notice fuel :
  ∀ g w pulses ps w1 x,
    iter_pulses_from server key mtime 20 fuel g w = (pulses, Exhausted, w1) →
    decode_list decode_pulse pulses = Some ps →
    forallb known_types ps = true →
    ascii_only (flat_map (spec_records notice) ps) = true →
    main_pulses server key mtime notice fuel g (with_written w x) =
      (Ok true, with_written w1 (x ++ flat_map (spec_records notice) ps)).
Proof.
  induction fuel as [|fuel IH]; intros g w pulses ps w1 x Hit Hd Hk Ha.
  - discriminate.
  - rewrite main_pulses_S, gen_step_frame. cbn [iter_pulses_from] in Hit.
    destruct (gen_step server key mtime 20 g w) as [[[pulse g'|g'|]|e] w'].
    + destruct (iter_pulses_from server key mtime 20 fuel g' w') as [[ys e] w''] eqn:Hrec.
      injection Hit as <- -> ->.
      simpl in Hd. destruct (decode_pulse pulse) as [p|] eqn:Hp; [|discriminate].
      simpl in Hd. destruct (decode_list decode_pulse ys) as [ps'|] eqn:Hps; [|discriminate].
      injection Hd as <-. cbn [forallb] in Hk. apply andb_prop in Hk as [Hk1 Hk2].
      cbn [flat_map] in Ha. unfold ascii_only in Ha. rewrite forallb_app in Ha.
      apply andb_prop in Ha as [Ha1 Ha2].
      cbn [fst snd]. rewrite (main_pulse_decoded notice pulse p _ Hp Hk1 Ha1).
      change (with_written (with_written w' x) (written (with_written w' x) ++ spec_records notice p))
        with (with_written w' (x ++ spec_records notice p)).
      rewrite (IH g' w' ys ps' w1 _ Hrec Hps Hk2 Ha2).
      cbn [flat_map]. by rewrite app_assoc.
    + cbn [fst snd]. by apply IH with (pulses := pulses).
    + injection Hit as <- <-. injection Hd as <-. simpl. by rewrite app_nil_r.
    + discriminate.
Qed.

Lemma main_decoded server cfg mtime fuel pulses ps w1 :
  iter_pulses server (api_key cfg) mtime 20 fuel initial_world
    = (pulses, Exhausted, w1) →
  decode_list decode_pulse pulses = Some ps →
  forallb known_types ps = true →
  ascii_only (flat_map (spec_records (do_notice cfg)) ps) = true →
  main server cfg mtime fuel =
    (Completed,
     with_written w1 (_HEADER :: flat_map (spec_records (do_notice cfg)) ps)).
Proof.
  intros Hit Hd Hk Ha. rewrite main_unfold.
  change (World [] [] [_HEADER]) with (with_written initial_world [_HEADER]).
  by rewrite (main_pulses_decoded server _ mtime (do_notice cfg) fuel GStart
                initial_world pulses ps w1 [_HEADER] Hit Hd Hk Ha).
Qed.

Lemma main_first_indicator_raises server cfg mtime fuel
    (dpage dpulse : gmap string json) pulses indicator indicators e :
  server 0%nat (initial_request (api_key cfg) mtime 20)
    = Some (Response 200 (Some (JObj dpage))) →
  dpage !! "results" = Some (JArr (JObj dpulse :: pulses)) →
  dpulse !! "indicators" = Some (JArr (indicator :: indicators)) →
  build_fields (do_notice cfg) (JObj dpulse) indicator = Raise e →
  main server cfg mtime (S (S fuel))
    = (outcome_of (Raise e),
       World [(initial_request (api_key cfg) mtime 20,
               Some (Response 200 (Some (JObj dpage))))] [] [_HEADER]).
Proof.
  intros Hsrv Hres Hinds Hb.
  rewrite main_unfold, main_pulses_S.
  cbn [gen_step]. rewrite gen_step_fetch.
  rewrite (_get_200 _ _ _ _ _ _ (JObj dpage)) by exact Hsrv.
  cbn [py_getitem]. rewrite Hres. cbn [py_iter].
  rewrite main_pulses_S. cbn [gen_step mret M_ret].
  rewrite main_pulse_unfold. cbn [py_getitem]. rewrite Hinds. cbn [py_iter].
  rewrite main_indicators_cons, (main_indicator_raise _ _ _ e) by exact Hb.
  reflexivity.
Qed.

(** ** Pagination *)

Lemma iter_first_yields server key mtime limit k rest initial_results w :
  iter_pulses_from server key mtime limit (length rest + k) (GFirst rest initial_results) w =
  let '(ys, e, w') :=
    iter_pulses_from server key mtime limit k (GFirst [] initial_results) w in
  (rest ++ ys, e, w').
Proof.
  induction rest as [|result rest IH].
  - simpl. by destruct (iter_pulses_from _ _ _ _ _ _ _) as [[ys e] w'].
  - cbn [length Nat.add]. rewrite iter_pulses_from_S. cbn [gen_step mret M_ret].
    rewrite IH. by destruct (iter_pulses_from _ _ _ _ k _ _) as [[ys e] w'].
Qed.

Lemma iter_page_yields server key mtime limit k rest json_data w :
  iter_pulses_from server key mtime limit (length rest + k) (GPage rest json_data) w =
  let '(ys, e, w') :=
    iter_pulses_from server key mtime limit k (GPage [] json_data) w in
  (rest ++ ys, e, w').
Proof.
  induction rest as [|result rest IH].
  - simpl. by destruct (iter_pulses_from _ _ _ _ _ _ _) as [[ys e] w'].
  - cbn [length Nat.add]. rewrite iter_pulses_from_S. cbn [gen_step mret M_ret].
    rewrite IH. by destruct (iter_pulses_from _ _ _ _ k _ _) as [[ys e] w'].
Qed.

Lemma py_bool_not_empty_str (v : json) : py_bool v = true → py_eq_empty_str v = false.
Proof. destruct v; try reflexivity. simpl. by destruct (String.eqb s EmptyString). Qed.

Lemma request_of_next key mtime limit next_request :
  py_bool next_request = true →
  request_of key mtime limit next_request = next_page_request key next_request.
Proof. intros H. unfold request_of. by rewrite py_bool_not_empty_str. Qed.

(** ** The request log and the standard output *)

Lemma log_step_refl w e : log_step w e w.
Proof. exists []. split; [by rewrite app_nil_r|]. left. by split. Qed.

Lemma log_step_frame w w' e : frame w w' → log_step w e w'.
Proof.
  intros [Hs Ho]. exists []. split; [by rewrite app_nil_r|]. left. by split.
Qed.

Lemma log_step_trans w1 w2 w3 e e' :
  log_step w1 e w2 → e = None → log_step w2 e' w3 → log_step w1 e' w3.
Proof.
  intros (n1 & Hs1 & H1) -> (n2 & Hs2 & H2).
  destruct H1 as [[Hf1 Ho1]|(pre & rq & r & _ & _ & _ & [=] & _)].
  exists (n1 ++ n2). split; [by rewrite Hs2, Hs1, app_assoc|].
  destruct H2 as [[Hf2 Ho2]|(pre & rq & r & -> & Hpre & Hr & He & Ho2)].
  - left. split; [by apply Forall_app|congruence].
  - right. exists (n1 ++ pre), rq, r.
    split; [by rewrite app_assoc|]. split; [by apply Forall_app|].
    split; [done|]. split; [done|]. congruence.
Qed.

Lemma log_step_quiet w w' e : log_step w None w' → log_step w e w'.
Proof. intros H. eapply log_step_trans; [exact H|done|apply log_step_refl]. Qed.

Lemma all_200_refl w : all_200 w w.
Proof. exists []. by rewrite app_nil_r. Qed.

Lemma all_200_frame w w' : frame w w' → all_200 w w'.
Proof. intros [Hs _]. exists []. by rewrite app_nil_r. Qed.

Lemma all_200_trans w1 w2 w3 : all_200 w1 w2 → all_200 w2 w3 → all_200 w1 w3.
Proof.
  intros (n1 & H1 & F1) (n2 & H2 & F2). exists (n1 ++ n2).
  split; [by rewrite H2, H1, app_assoc|by apply Forall_app].
Qed.

Lemma _get_log server key mtime limit next_request w res w' :
  _get server key mtime limit next_request w = (res, w') →
  log_step w (raised res) w' ∧
  (∀ j, res = Ok j → j ≠ JNull → ∃ rq a, sent w' = sent w ++ [(rq, a)] ∧ is_200 a = true).
Proof.
  rewrite _get_unfold. cbn zeta.
  set (rq := request_of key mtime limit next_request).
  destruct (server (length (sent w)) rq) as [r|] eqn:Hs.
  - destruct (status_code r =? 200) eqn:H200.
    { assert (Hnf : fatal (Some r) = false).
      { apply Z.eqb_eq in H200. simpl. by rewrite H200. }
      assert (Hl : ∀ e, log_step w e (logged w rq (Some r))).
      { intros e. exists [(rq, Some r)]. split; [done|]. left.
        split; [by apply Forall_singleton|done]. }
      destruct (body r); intros [= <- <-]; (split; [apply Hl|]).
      - intros j' _ _. exists rq, (Some r). split; [done|exact H200].
      - discriminate. }
    destruct (status_code r =? 403) eqn:H403.
    { intros [= <- <-]. split; [|discriminate].
      exists [(rq, Some r)]. split; [done|]. right. exists [], rq, r.
      split; [done|]. split; [done|]. split; [by simpl; rewrite H403|].
      split; [done|]. unfold fatal_message. by rewrite H403. }
    destruct (status_code r =? 400) eqn:H400.
    { intros [= <- <-]. split; [|discriminate].
      exists [(rq, Some r)]. split; [done|]. right. exists [], rq, r.
      split; [done|]. split; [done|]. split; [by simpl; rewrite H403, H400|].
      split; [done|]. unfold fatal_message. by rewrite H403. }
    intros [= <- <-]. split; [|by intros j [= <-] Hj].
    exists [(rq, Some r)]. split; [done|]. left.
    split; [|done]. apply Forall_singleton. simpl. by rewrite H403, H400.
  - intros [= <- <-]. split; [|discriminate].
    exists [(rq, None)]. split; [done|]. left.
    split; [by apply Forall_singleton|done].
Qed.

Ltac same_world :=
  intros [= <- <-]; split; [apply log_step_refl | intros; apply all_200_refl].

Lemma fetch_log server key mtime limit next_request w res w'
    (k : list json → json → gen_state) :
  (json_data ← _get server key mtime limit next_request;
   results ← lift (py_getitem json_data "results");
   items ← lift (py_iter results);
   mret (Tau (k items json_data))) w = (res, w') →
  log_step w (raised res) w' ∧ (∀ ev, res = Ok ev → all_200 w w').
Proof.
  rewrite gen_step_fetch.
  destruct (_get server key mtime limit next_request w) as [[j|e] w1] eqn:Hg;
    apply _get_log in Hg as [Hl H2].
  - destruct (py_getitem j "results") as [results|e] eqn:Hr.
    + assert (Hj : j ≠ JNull) by (intros ->; discriminate).
      destruct (H2 j eq_refl Hj) as (rq & a & Hs & Ha).
      assert (H200 : all_200 w w1).
      { exists [(rq, a)]. split; [done|by apply Forall_singleton]. }
      destruct (py_iter results); intros [= <- <-];
        (split; [by apply log_step_quiet|]).
      * by intros.
      * discriminate.
    + intros [= <- <-]. split; [by apply log_step_quiet|discriminate].
  - intros [= <- <-]. by split.
Qed.

Lemma gen_step_log server key mtime limit g w res w' :
  gen_step server key mtime limit g w = (res, w') →
  log_step w (raised res) w' ∧ (∀ ev, res = Ok ev → all_200 w w').
Proof.
  destruct g as [|[|result rest] initial_results|next_request|[|result rest] json_data];
    cbn [gen_step].
  - apply fetch_log.
  - rewrite gen_step_next. destruct (py_getitem _ _); same_world.
  - same_world.
  - destruct (py_bool next_request); [apply fetch_log|same_world].
  - rewrite gen_step_next. destruct (py_getitem _ _); same_world.
  - same_world.
Qed.

Lemma main_pulses_log server key mtime notice fuel g w res w' :
  main_pulses server key mtime notice fuel g w = (res, w') →
  log_step w (raised res) w' ∧ (∀ b, res = Ok b → all_200 w w').
Proof.
  revert g w. induction fuel as [|fuel IH]; intros g w.
  - same_world.
  - rewrite main_pulses_S.
    destruct (gen_step server key mtime 20 g w) as [[[pulse g'|g'|]|e] w1] eqn:Hg;
      apply gen_step_log in Hg as [Hl H2]; simpl in Hl.
    + specialize (H2 _ eq_refl).
      destruct (main_pulse notice pulse w1) as [[[]|e] w2] eqn:Hp;
        apply main_pulse_written in Hp as [Hf _].
      * intros H. apply IH in H as [Hl' H2']. split.
        -- eapply log_step_trans; [exact Hl|done|].
           eapply log_step_trans; [by apply (log_step_frame _ _ None)|done|exact Hl'].
        -- intros b Hb. eapply all_200_trans; [exact H2|].
           eapply all_200_trans; [by apply all_200_frame|by eapply H2'].
      * intros [= <- <-]. split; [|discriminate].
        eapply log_step_trans; [exact Hl|done|by apply log_step_frame].
    + specialize (H2 _ eq_refl). intros H. apply IH in H as [Hl' H2']. split.
      * eapply log_step_trans; [exact Hl|done|exact Hl'].
      * intros b Hb. eapply all_200_trans; [exact H2|by eapply H2'].
    + intros [= <- <-]. split; [exact Hl|]. intros. by apply (H2 Stop).
    + intros [= <- <-]. split; [exact Hl|discriminate].
Qed.

Lemma main_fatal server cfg mtime fuel rq r :
  (rq, Some r) ∈ sent (snd (main server cfg mtime fuel)) →
  fatal (Some r) = true →
  fst (main server cfg mtime fuel) = Exited 1 ∧
  stdout (snd (main server cfg mtime fuel)) = [fatal_message r] ∧
  last (sent (snd (main server cfg mtime fuel))) = Some (rq, Some r).
Proof.
  rewrite main_unfold. cbn [fst snd].
  destruct (main_pulses _ _ _ _ _ _ _) as [res w'] eqn:H.
  apply main_pulses_log in H as [(new & Hs & Hl) _]. cbn [sent stdout app] in Hs, Hl.
  cbn [fst snd]. rewrite Hs. intros Hin Hfatal.
  destruct Hl as [[Hnf _]|(pre & rq' & r' & -> & Hpre & Hr' & He & Ho)].
  - exfalso. rewrite Forall_forall in Hnf. specialize (Hnf _ Hin). cbn [snd] in Hnf. congruence.
  - apply elem_of_app in Hin as [Hin|Hin].
    + exfalso. rewrite Forall_forall in Hpre. specialize (Hpre _ Hin). cbn [snd] in Hpre.
      congruence.
    + apply list_elem_of_singleton in Hin. injection Hin as <- <-.
      destruct res as [b|e]; [discriminate|]. injection He as ->.
      cbn [fst snd]. split; [done|]. split; [done|]. by rewrite last_snoc.
Qed.

(** * The claims *)

(** ** Sanity checks on the scenarios *)

Example demo_run_written :
  written (snd (main demo_server demo_cfg "2020-01-01T00:00:00" 4))
  = [_HEADER; demo_line "T"].
Proof. reflexivity. Qed.

Example empty_refs_use_fallback :
  build_fields "T" empty_refs_pulse ipv4_indicator
  = Ok (Some [JStr "1.2.3.4"; JStr "Intel::ADDR"; JStr "X"; JStr fallback_url;
              JStr ("T" +:+ NL)]).
Proof. reflexivity. Qed.

(** ** Writer *)




(** ** Type mapper *)

(** C2. [map_indicator_type] returns the documented category for each of
    the ten supported type tags; for CVE, Mutex and CIDR it returns the
    unsupported sentinel, and an indicator carrying one of these tags is
    skipped: nothing is built and the process state is unchanged. The
    sentinel is the tag of no other category. *)
Theorem map_indicator_type_table :
  map_indicator_type (JStr "IPv4") = Ok (category_tag ADDR) ∧
  map_indicator_type (JStr "IPv6") = Ok (category_tag ADDR) ∧
  map_indicator_type (JStr "domain") = Ok (category_tag DOMAIN) ∧
  map_indicator_type (JStr "hostname") = Ok (category_tag DOMAIN) ∧
  map_indicator_type (JStr "email") = Ok (category_tag EMAIL) ∧
  map_indicator_type (JStr "URL") = Ok (category_tag URL) ∧
  map_indicator_type (JStr "URI") = Ok (category_tag URL) ∧
  map_indicator_type (JStr "FileHash-MD5") = Ok (category_tag FILE_HASH) ∧
  map_indicator_type (JStr "FileHash-SHA1") = Ok (category_tag FILE_HASH) ∧
  map_indicator_type (JStr "FileHash-SHA256") = Ok (category_tag FILE_HASH) ∧
  Forall (fun t =>
      map_indicator_type (JStr t) = Ok (category_tag UNSUPPORTED) ∧
      ∀ (notice : string) (pulse : json) (d : gmap string json) (w : world),
        build_fields notice pulse (JObj (<["type" := JStr t]> d)) = Ok None ∧
        main_indicator notice pulse (JObj (<["type" := JStr t]> d)) w = (Ok (), w))
    ["CVE"; "Mutex"; "CIDR"] ∧
  (∀ c, category_tag c = "Unsupported" ↔ c = UNSUPPORTED).
Proof.
  repeat (split; [reflexivity|]).
  split.
  - repeat (apply Forall_cons; split;
      [split; [reflexivity | intros; by apply unsupported_skipped]|]).
    by apply Forall_nil.
  - intros c; split; [destruct c; (reflexivity || discriminate) | intros ->; reflexivity].
Qed.

(** ** Fetcher *)

(** C3. When the first request is answered 200 with a page whose [next]
    is true as a condition, the request to that link is answered 200 with
    a page whose [next] is null or empty, the generator yields the results
    of the first page followed by those of the second, in order, and is
    exhausted after exactly these two requests, however much fuel is left;
    at the [while] test it stops without sending anything. *)
Theorem two_pages_in_order (server : nat → request → option response)
    (key mtime : string) (limit : Z) (w : world)
    (d1 d2 : gmap string json) (r1 r2 : list json) (next1 next2 : json)
    (extra : nat) :
  server (length (sent w)) (initial_request key mtime limit)
    = Some (Response 200 (Some (JObj d1))) →
  d1 !! "results" = Some (JArr r1) →
  d1 !! "next" = Some next1 →
  py_bool next1 = true →
  server (S (length (sent w))) (next_page_request key next1)
    = Some (Response 200 (Some (JObj d2))) →
  d2 !! "results" = Some (JArr r2) →
  d2 !! "next" = Some next2 →
  py_bool next2 = false →
  let w1 := logged w (initial_request key mtime limit)
              (Some (Response 200 (Some (JObj d1)))) in
  let w2 := logged w1 (next_page_request key next1)
              (Some (Response 200 (Some (JObj d2)))) in
  iter_pulses server key mtime limit (length r1 + length r2 + 5 + extra) w
    = (r1 ++ r2, Exhausted, w2) ∧
  gen_step server key mtime limit (GWhile next2) w2 = (Ok Stop, w2).
Proof.
  intros Hs1 Hr1 Hn1 Hb1 Hs2 Hr2 Hn2 Hb2 w1 w2.
  split; [|by cbn [gen_step]; rewrite Hb2].
  unfold iter_pulses.
  replace (length r1 + length r2 + 5 + extra)%nat
    with (S (length r1 + S (S (length r2 + S (S extra)))))%nat by lia.
  rewrite iter_pulses_from_S. cbn [gen_step]. rewrite gen_step_fetch.
  rewrite (_get_200 _ _ _ _ _ _ (JObj d1)) by exact Hs1.
  cbn [py_getitem]. rewrite Hr1. cbn [py_iter].
  rewrite iter_first_yields, iter_pulses_from_S. cbn [gen_step].
  rewrite gen_step_next. cbn [py_getitem]. rewrite Hn1.
  rewrite iter_pulses_from_S. cbn [gen_step]. rewrite Hb1, gen_step_fetch.
  assert (Hs2' : server (length (sent (logged w (request_of key mtime limit (JStr EmptyString))
                     (Some (Response 200 (Some (JObj d1)))))))
                   (request_of key mtime 20 next1)
                 = Some (Response 200 (Some (JObj d2)))).
  { rewrite (request_of_next key mtime 20 next1) by exact Hb1. cbn [logged sent].
    rewrite length_app. cbn [length]. rewrite Nat.add_1_r. exact Hs2. }
  rewrite (_get_200 _ _ _ _ _ _ (JObj d2)) by exact Hs2'.
  cbn [py_getitem]. rewrite Hr2. cbn [py_iter].
  rewrite iter_page_yields, iter_pulses_from_S. cbn [gen_step].
  rewrite gen_step_next. cbn [py_getitem]. rewrite Hn2.
  rewrite iter_pulses_from_S. cbn [gen_step]. rewrite Hb2. cbn [mret M_ret].
  rewrite app_nil_r, (request_of_next key mtime 20 next1) by exact Hb1. reflexivity.
Qed.

Lemma two_pages_in_order_witness :
  iter_pulses two_pages_server "KEY" "2020-01-01T00:00:00" 20 8 initial_world
  = ([demo_pulse; yara_pulse; empty_refs_pulse], Exhausted,
     logged
       (logged initial_world (initial_request "KEY" "2020-01-01T00:00:00" 20)
          (Some (page [demo_pulse; yara_pulse] (JStr "http://otx/page2"))))
       (next_page_request "KEY" (JStr "http://otx/page2"))
       (Some (page [empty_refs_pulse] JNull))).
Proof.
  refine (proj1 (two_pages_in_order two_pages_server "KEY" "2020-01-01T00:00:00" 20
            initial_world _ _ [demo_pulse; yara_pulse] [empty_refs_pulse]
            (JStr "http://otx/page2") JNull 0
            _ _ _ _ _ _ _ _)); reflexivity.
Defined.

(** ** Output file *)

(** C4. Whatever the remote service answers and however far the run gets,
    the first chunk written to the file is the header, whose bytes are the
    documented ones; every later chunk is the record of some indicator and
    none of them is the header. *)
Theorem output_begins_with_header (server : nat → request → option response)
    (cfg : config) (mtime : string) (fuel : nat) :
  Ascii.nat_of_ascii <$> String.list_ascii_of_string _HEADER = header_bytes ∧
  ∃ records,
    written (snd (main server cfg mtime fuel)) = _HEADER :: records ∧
    Forall (fun line => line ≠ _HEADER ∧
                        ∃ pulse, record_of (do_notice cfg) pulse line) records.
Proof.
  split; [reflexivity|].
  destruct (main_written server cfg mtime fuel) as (records & Hw & Hr).
  exists records. split; [exact Hw|].
  eapply Forall_impl; [exact Hr|].
  intros line [pulse Hline]. split; [by eapply record_not_header|by exists pulse].
Qed.

(** C5. In every run, each chunk written after the header is the join of
    a list [fields] built for some indicator whose mapped category, the
    second field, is not the unsupported sentinel; an indicator whose type
    maps to the sentinel is skipped before anything is built or written. *)
Theorem emitted_category_supported (server : nat → request → option response)
    (cfg : config) (mtime : string) (fuel : nat) :
  (∃ records,
     written (snd (main server cfg mtime fuel)) = _HEADER :: records ∧
     Forall (fun line =>
        ∃ pulse indicator ty value bro_type author url,
          py_getitem indicator "type" = Ok ty ∧
          map_indicator_type ty = Ok bro_type ∧
          bro_type ≠ "Unsupported" ∧
          build_fields (do_notice cfg) pulse indicator
            = Ok (Some [value; JStr bro_type; author; url;
                        JStr (do_notice cfg +:+ NL)]) ∧
          str_join TAB [value; JStr bro_type; author; url;
                        JStr (do_notice cfg +:+ NL)] = Ok line) records) ∧
  (∀ pulse indicator ty w,
     py_getitem indicator "type" = Ok ty →
     map_indicator_type ty = Ok "Unsupported" →
     build_fields (do_notice cfg) pulse indicator = Ok None ∧
     main_indicator (do_notice cfg) pulse indicator w = (Ok (), w)).
Proof.
  split.
  - destruct (main_written server cfg mtime fuel) as (records & Hw & Hr).
    exists records. split; [exact Hw|].
    eapply Forall_impl; [exact Hr|].
    intros line (pulse & indicator & fields & Hb & Hj).
    destruct (build_fields_inv _ _ _ _ Hb)
      as (ty & bro_type & url & value & author & Hty & Hm & Hne & _ & _ & _ & ->).
    by exists pulse, indicator, ty, value, bro_type, author, url.
  - intros pulse indicator ty w Hty Hm.
    assert (Hb : build_fields (do_notice cfg) pulse indicator = Ok None).
    { unfold build_fields, mbind, result_bind. rewrite Hty, Hm. reflexivity. }
    split; [exact Hb|by apply main_indicator_skip].
Qed.

Lemma emitted_category_supported_witness :
  main_indicator "T" demo_pulse
    (obj [("indicator", JStr "CVE-2020-1"); ("type", JStr "CVE")]) initial_world
  = (Ok (), initial_world).
Proof.
  apply (proj2 (emitted_category_supported demo_server demo_cfg "2020-01-01T00:00:00" 5)
           demo_pulse _ (JStr "CVE") initial_world); reflexivity.
Defined.

(** C6. For a pulse whose references field is a list: the lookup of the
    first reference raises the index error when the list is empty; for every
    retained indicator (its type tag is mapped to a category other than the
    unsupported one, and its value and the author name are present) the list
    [fields] is built, and its fourth item, the URL, is the fallback constant
    when the list is empty and the first element of the list otherwise; the
    join of that list, when it is ASCII text, is written as one chunk; and
    every chunk written for the indicators of the pulse is the join of such
    a list. *)
Theorem url_field_resolution (notice : string) (pulse : json) (w : world)
    (refs : list json) :
  py_getitem pulse "references" = Ok (JArr refs) →
  (refs = [] → first_reference pulse = Raise IndexError) ∧
  (∀ (indicator ty value author : json) (bro_type : string),
     py_getitem indicator "type" = Ok ty →
     map_indicator_type ty = Ok bro_type →
     bro_type ≠ "Unsupported" →
     py_getitem indicator "indicator" = Ok value →
     py_getitem pulse "author_name" = Ok author →
     (refs = [] →
      build_fields notice pulse indicator =
        Ok (Some [value; JStr bro_type; author; JStr fallback_url;
                  JStr (notice +:+ NL)])) ∧
     (∀ first rest, refs = first :: rest →
      build_fields notice pulse indicator =
        Ok (Some [value; JStr bro_type; author; first; JStr (notice +:+ NL)])) ∧
     (∀ fields line w0,
        build_fields notice pulse indicator = Ok (Some fields) →
        str_join TAB fields = Ok line →
        is_ascii line = true →
        main_indicator notice pulse indicator w0 =
          (Ok (), with_written w0 (written w0 ++ [line])))) ∧
  ∃ records,
    written (snd (main_pulse notice pulse w)) = written w ++ records ∧
    Forall (fun line =>
      ∃ indicator fields,
        build_fields notice pulse indicator = Ok (Some fields) ∧
        str_join TAB fields = Ok line ∧
        (refs = [] → fields !! 3%nat = Some (JStr fallback_url)) ∧
        (∀ first rest, refs = first :: rest → fields !! 3%nat = Some first)) records.
Proof.
  intros Hrefs. split; [|split].
  - intros ->. apply first_reference_index_error. by left.
  - intros indicator ty value author bro_type Hty Hm Hne Hv Ha.
    assert (Hb : build_fields notice pulse indicator =
                 (url ← try_except_IndexError (first_reference pulse)
                          (Ok (JStr fallback_url));
                  Ok (Some [value; JStr bro_type; author; url; JStr (notice +:+ NL)]))).
    { unfold build_fields. rewrite Hty. cbn [mbind result_bind]. rewrite Hm.
      cbn [mbind result_bind].
      destruct (String.eqb_spec bro_type "Unsupported") as [|_]; [done|].
      destruct (try_except_IndexError _ _) as [url|e]; [|reflexivity].
      cbn [mbind result_bind]. rewrite Hv. cbn [mbind result_bind]. by rewrite Ha. }
    unfold first_reference in Hb. rewrite Hrefs in Hb. cbn [mbind result_bind] in Hb.
    split; [|split].
    + intros ->. exact Hb.
    + intros first rest ->. exact Hb.
    + intros fields line w0 Hf Hj Hline.
      rewrite main_indicator_unfold, Hf, Hj, Hline. reflexivity.
  - destruct (main_pulse notice pulse w) as [r w'] eqn:H.
    apply main_pulse_written in H as [_ (records & Hw & Hr)].
    exists records. split; [exact Hw|].
    eapply Forall_impl; [exact Hr|].
    intros line (indicator & fields & Hb & Hj).
    exists indicator, fields. split; [exact Hb|]. split; [exact Hj|].
    apply build_fields_inv in Hb
      as (ty & bro_type & url & value & author & _ & _ & _ & Hurl & _ & _ & ->).
    unfold first_reference, mbind, result_bind in Hurl. rewrite Hrefs in Hurl.
    split.
    + intros ->. simpl in Hurl. by injection Hurl as <-.
    + intros first rest ->. simpl in Hurl. by injection Hurl as <-.
Qed.

Lemma url_field_resolution_witness :
  (build_fields "T" empty_refs_pulse ipv4_indicator =
     Ok (Some [JStr "1.2.3.4"; JStr "Intel::ADDR"; JStr "X"; JStr fallback_url;
               JStr ("T" +:+ NL)]) ∧
   main_indicator "T" empty_refs_pulse ipv4_indicator initial_world =
     (Ok (),
      with_written initial_world
        ["1.2.3.4" +:+ TAB +:+ "Intel::ADDR" +:+ TAB +:+ "X" +:+ TAB +:+
         "https://otx.alienvault.com" +:+ TAB +:+ "T" +:+ NL])) ∧
  (build_fields "T" demo_pulse ipv4_indicator =
     Ok (Some [JStr "1.2.3.4"; JStr "Intel::ADDR"; JStr "X"; JStr "http://r";
               JStr ("T" +:+ NL)]) ∧
   main_indicator "T" demo_pulse ipv4_indicator initial_world =
     (Ok (), with_written initial_world [demo_line "T"])).
Proof.
  pose proof (url_field_resolution "T" empty_refs_pulse initial_world [] eq_refl)
    as (_ & He & _).
  pose proof (url_field_resolution "T" demo_pulse initial_world [JStr "http://r"] eq_refl)
    as (_ & Hd & _).
  assert (Hne : "Intel::ADDR" ≠ "Unsupported") by discriminate.
  destruct (He ipv4_indicator (JStr "IPv4") (JStr "1.2.3.4") (JStr "X") "Intel::ADDR"
              eq_refl eq_refl Hne eq_refl eq_refl) as (He1 & _ & He3).
  destruct (Hd ipv4_indicator (JStr "IPv4") (JStr "1.2.3.4") (JStr "X") "Intel::ADDR"
              eq_refl eq_refl Hne eq_refl eq_refl) as (_ & Hd2 & Hd3).
  split; split.
  - exact (He1 eq_refl).
  - exact (He3 _ _ initial_world (He1 eq_refl) eq_refl eq_refl).
  - exact (Hd2 (JStr "http://r") [] eq_refl).
  - exact (Hd3 _ _ initial_world (Hd2 (JStr "http://r") [] eq_refl) eq_refl eq_refl).
Defined.

(** ** Errors *)

(** C7 fails as stated: every request of this run is answered 200 and the
    process ends with exit code 1, on the lookup error of a type tag that
    the table does not list. *)
Lemma every_request_200_exit_1 :
  let run := main yara_server demo_cfg "2020-01-01T00:00:00" 5 in
  sent (snd run)
    = [(initial_request "KEY" "2020-01-01T00:00:00" 20, Some (page [yara_pulse] JNull))] ∧
  status_code (page [yara_pulse] JNull) = 200 ∧
  fst run = Uncaught KeyError ∧
  exit_code (fst run) = Some 1.
Proof. cbv zeta. repeat split; reflexivity. Qed.

(** C7, amended. If a request of the run is answered 403, the process
    exits with code 1, that request is the last one sent and the only
    output on the terminal is the invalid API key message; the same holds
    for 400 with the invalid request message. When the fetch ends and the
    fetched pulses have the documented shape with type tags of the table
    and records of ASCII text, the process completes with exit code 0,
    prints nothing, and every request was answered 200. *)
Theorem fatal_statuses_and_clean_run :
  (∀ (server : nat → request → option response) (cfg : config) (mtime : string)
     (fuel : nat) (rq : request) (r : response),
     (rq, Some r) ∈ sent (snd (main server cfg mtime fuel)) →
     status_code r = 403 →
     fst (main server cfg mtime fuel) = Exited 1 ∧
     exit_code (fst (main server cfg mtime fuel)) = Some 1 ∧
     stdout (snd (main server cfg mtime fuel)) = ["An invalid API key was specified."] ∧
     last (sent (snd (main server cfg mtime fuel))) = Some (rq, Some r)) ∧
  (∀ (server : nat → request → option response) (cfg : config) (mtime : string)
     (fuel : nat) (rq : request) (r : response),
     (rq, Some r) ∈ sent (snd (main server cfg mtime fuel)) →
     status_code r = 400 →
     fst (main server cfg mtime fuel) = Exited 1 ∧
     exit_code (fst (main server cfg mtime fuel)) = Some 1 ∧
     stdout (snd (main server cfg mtime fuel)) = ["An invalid request was made."] ∧
     last (sent (snd (main server cfg mtime fuel))) = Some (rq, Some r)) ∧
  (∀ (server : nat → request → option response) (cfg : config) (mtime : string)
     (fuel : nat) (pulses : list json) (ps : list otx_pulse) (w1 : world),
     iter_pulses server (api_key cfg) mtime 20 fuel initial_world
       = (pulses, Exhausted, w1) →
     decode_list decode_pulse pulses = Some ps →
     forallb known_types ps = true →
     ascii_only (flat_map (spec_records (do_notice cfg)) ps) = true →
     fst (main server cfg mtime fuel) = Completed ∧
     exit_code (fst (main server cfg mtime fuel)) = Some 0 ∧
     stdout (snd (main server cfg mtime fuel)) = [] ∧
     Forall (fun x => is_200 x.2 = true) (sent (snd (main server cfg mtime fuel)))).
Proof.
  split; [|split].
  - intros server cfg mtime fuel rq r Hin Hst.
    assert (Hf : fatal (Some r) = true) by (simpl; by rewrite Hst).
    destruct (main_fatal server cfg mtime fuel rq r Hin Hf) as (Ho & Hout & Hlast).
    rewrite Ho. repeat split; try done.
    rewrite Hout. unfold fatal_message. by rewrite Hst.
  - intros server cfg mtime fuel rq r Hin Hst.
    assert (Hf : fatal (Some r) = true) by (simpl; by rewrite Hst).
    destruct (main_fatal server cfg mtime fuel rq r Hin Hf) as (Ho & Hout & Hlast).
    rewrite Ho. repeat split; try done.
    rewrite Hout. unfold fatal_message. by rewrite Hst.
  - intros server cfg mtime fuel pulses ps w1 Hit Hd Hk Ha.
    pose proof (main_decoded server cfg mtime fuel pulses ps w1 Hit Hd Hk Ha) as Hm.
    rewrite Hm. cbn [fst snd exit_code]. split; [done|]. split; [done|].
    rewrite main_unfold in Hm.
    destruct (main_pulses _ _ _ _ _ _ _) as [res w'] eqn:H. cbn [fst snd] in Hm.
    apply main_pulses_log in H as [(new & Hs & Hl) H2].
    injection Hm as Ho Hw. destruct res as [[]|[]]; try discriminate.
    destruct (H2 true eq_refl) as (new' & Hs' & H200). cbn [sent app] in Hs, Hs'.
    destruct Hl as [[_ Hout]|(? & ? & ? & _ & _ & _ & [=] & _)].
    rewrite Hw in Hs', Hout. cbn [with_written sent stdout] in *.
    split; [exact Hout|]. by rewrite Hs'.
Qed.

Lemma fatal_statuses_and_clean_run_witness :
  fst (main (status_server 403) demo_cfg "2020-01-01T00:00:00" 3) = Exited 1 ∧
  fst (main (status_server 400) demo_cfg "2020-01-01T00:00:00" 3) = Exited 1 ∧
  fst (main demo_server demo_cfg "2020-01-01T00:00:00" 4) = Completed.
Proof.
  split; [|split].
  - refine (proj1 (proj1 fatal_statuses_and_clean_run (status_server 403) demo_cfg
              "2020-01-01T00:00:00" 3%nat
              (initial_request "KEY" "2020-01-01T00:00:00" 20) (Response 403 None) _ _)).
    + apply list_elem_of_singleton. reflexivity.
    + reflexivity.
  - refine (proj1 (proj1 (proj2 fatal_statuses_and_clean_run) (status_server 400) demo_cfg
              "2020-01-01T00:00:00" 3%nat
              (initial_request "KEY" "2020-01-01T00:00:00" 20) (Response 400 None) _ _)).
    + apply list_elem_of_singleton. reflexivity.
    + reflexivity.
  - refine (proj1 (proj2 (proj2 fatal_statuses_and_clean_run) demo_server demo_cfg
              "2020-01-01T00:00:00" 4%nat [demo_pulse] [demo_pulse_model] _ _ _ _ _));
      reflexivity.
Defined.

(** C8. A type tag that the table does not list makes [map_indicator_type]
    raise the lookup error; the indicator is neither skipped nor given a
    category: building its record raises, nothing is written for it, and a
    run that meets it as the first indicator of the first pulse ends on the
    uncaught error, exit code 1, with only the header in the file. *)
Theorem unknown_type_is_fatal (t : string) (server : nat → request → option response)
    (cfg : config) (mtime : string) (fuel : nat)
    (dpage dpulse dind : gmap string json) (pulses indicators : list json) :
  _MAP !! t = None →
  server 0%nat (initial_request (api_key cfg) mtime 20)
    = Some (Response 200 (Some (JObj dpage))) →
  dpage !! "results" = Some (JArr (JObj dpulse :: pulses)) →
  dpulse !! "indicators" = Some (JArr (JObj dind :: indicators)) →
  dind !! "type" = Some (JStr t) →
  map_indicator_type (JStr t) = Raise KeyError ∧
  (∀ notice pulse w,
     build_fields notice pulse (JObj dind) = Raise KeyError ∧
     main_indicator notice pulse (JObj dind) w = (Raise KeyError, w)) ∧
  main server cfg mtime (S (S fuel))
    = (Uncaught KeyError,
       World [(initial_request (api_key cfg) mtime 20,
               Some (Response 200 (Some (JObj dpage))))] [] [_HEADER]) ∧
  exit_code (Uncaught KeyError) = Some 1.
Proof.
  intros Ht Hsrv Hres Hinds Hty.
  assert (Hm : map_indicator_type (JStr t) = Raise KeyError).
  { unfold map_indicator_type. rewrite Ht. reflexivity. }
  assert (Hb : ∀ notice pulse, build_fields notice pulse (JObj dind) = Raise KeyError).
  { intros. erewrite build_fields_type by exact Hty. rewrite Hm. reflexivity. }
  split; [exact Hm|]. split.
  { intros. split; [apply Hb | apply main_indicator_raise, Hb]. }
  split; [|reflexivity].
  by apply (main_first_indicator_raises server cfg mtime fuel dpage dpulse pulses
              (JObj dind) indicators KeyError).
Qed.

Lemma unknown_type_is_fatal_witness :
  fst (main yara_server demo_cfg "2020-01-01T00:00:00" 2) = Uncaught KeyError.
Proof.
  exact (f_equal fst
    (proj1 (proj2 (proj2
       (unknown_type_is_fatal "YARA" yara_server demo_cfg "2020-01-01T00:00:00" 0%nat
          _ _ _ [] [] eq_refl eq_refl eq_refl eq_refl eq_refl))))).
Defined.

(** C9. A response whose status is none of 200, 403 and 400 makes [_get]
    return [None]: nothing is printed and nothing is raised. The generator
    then fails on the subscript of [None] with a type error without
    yielding, at the first request as well as at a later page; when it is
    the first request, the run ends on that uncaught error with only the
    header in the file. *)
Theorem unhandled_status_is_not_handled :
  (∀ (server : nat → request → option response) (key mtime : string) (limit : Z)
     (next_request : json) (w : world) (r : response),
     server (length (sent w)) (request_of key mtime limit next_request) = Some r →
     unhandled_status r →
     let w' := logged w (request_of key mtime limit next_request) (Some r) in
     _get server key mtime limit next_request w = (Ok JNull, w') ∧
     stdout w' = stdout w ∧
     py_getitem JNull "results" = Raise TypeError ∧
     ∀ fuel,
       (next_request = JStr EmptyString →
        iter_pulses server key mtime limit (S fuel) w = ([], Raised TypeError, w')) ∧
       (py_bool next_request = true → limit = 20 →
        iter_pulses_from server key mtime limit (S fuel) (GWhile next_request) w
          = ([], Raised TypeError, w'))) ∧
  (∀ (server : nat → request → option response) (cfg : config) (mtime : string)
     (fuel : nat) (r : response),
     server 0%nat (initial_request (api_key cfg) mtime 20) = Some r →
     unhandled_status r →
     main server cfg mtime (S fuel)
       = (Uncaught TypeError,
          World [(initial_request (api_key cfg) mtime 20, Some r)] [] [_HEADER])).
Proof.
  split.
  - intros server key mtime limit next_request w r Hs Hr w'.
    pose proof (_get_unhandled _ _ _ _ _ _ _ Hs Hr) as Hg.
    split; [exact Hg|]. split; [reflexivity|]. split; [reflexivity|].
    intros fuel. split.
    + intros ->. unfold iter_pulses. rewrite iter_pulses_from_S. cbn [gen_step].
      rewrite gen_step_fetch, Hg. reflexivity.
    + intros Hb ->. rewrite iter_pulses_from_S. cbn [gen_step].
      rewrite Hb, gen_step_fetch, Hg. reflexivity.
  - intros server cfg mtime fuel r Hs Hr.
    rewrite main_unfold, main_pulses_S. cbn [gen_step].
    rewrite gen_step_fetch.
    rewrite (_get_unhandled _ _ _ _ _ _ r) by (try exact Hr; exact Hs).
    reflexivity.
Qed.

Lemma unhandled_status_is_not_handled_witness :
  main (status_server 500) demo_cfg "2020-01-01T00:00:00" 1
    = (Uncaught TypeError,
       World [(initial_request "KEY" "2020-01-01T00:00:00" 20, Some (Response 500 None))]
             [] [_HEADER]).
Proof.
  apply (proj2 unhandled_status_is_not_handled (status_server 500) demo_cfg
           "2020-01-01T00:00:00" 0%nat (Response 500 None)).
  - reflexivity.
  - unfold unhandled_status. simpl. lia.
Defined.

(** C10 fails as stated: the references field of this pulse is present and
    is not a list but the empty string; indexing it raises the index error
    and the record is built with the fallback URL. *)
Lemma fallback_on_empty_string_references :
  py_getitem empty_string_refs_pulse "references" = Ok (JStr EmptyString) ∧
  py_getitem empty_string_refs_pulse "references" ≠ Ok (JArr []) ∧
  first_reference empty_string_refs_pulse = Raise IndexError ∧
  build_fields "T" empty_string_refs_pulse ipv4_indicator
    = Ok (Some [JStr "1.2.3.4"; JStr "Intel::ADDR"; JStr "X"; JStr fallback_url;
                JStr ("T" +:+ NL)]).
Proof. repeat split; try reflexivity. discriminate. Qed.

(** C10, amended. The fallback URL is substituted exactly when taking the
    first reference raises the index error, which happens exactly when the
    references field is present and is an empty list or an empty string;
    any other error of that lookup is not caught. For a pulse without the
    references key the lookup raises the key error: the record of a
    retained indicator is not built, nothing is written for it, and a run
    that meets it as the first indicator of the first pulse ends on the
    uncaught key error with only the header in the file. *)
Theorem fallback_url_exactly_on_index_error :
  (∀ pulse : json,
     (first_reference pulse = Raise IndexError ↔
      py_getitem pulse "references" = Ok (JArr []) ∨
      py_getitem pulse "references" = Ok (JStr EmptyString)) ∧
     (first_reference pulse = Raise IndexError →
      try_except_IndexError (first_reference pulse) (Ok (JStr fallback_url))
        = Ok (JStr fallback_url)) ∧
     (first_reference pulse ≠ Raise IndexError →
      try_except_IndexError (first_reference pulse) (Ok (JStr fallback_url))
        = first_reference pulse)) ∧
  (∀ (notice : string) (d : gmap string json) (indicator ty : json)
     (bro_type : string) (w : world),
     d !! "references" = None →
     py_getitem indicator "type" = Ok ty →
     map_indicator_type ty = Ok bro_type →
     bro_type ≠ "Unsupported" →
     first_reference (JObj d) = Raise KeyError ∧
     build_fields notice (JObj d) indicator = Raise KeyError ∧
     main_indicator notice (JObj d) indicator w = (Raise KeyError, w)) ∧
  (∀ (server : nat → request → option response) (cfg : config) (mtime : string)
     (fuel : nat) (dpage dpulse : gmap string json) (pulses indicators : list json)
     (indicator ty : json) (bro_type : string),
     server 0%nat (initial_request (api_key cfg) mtime 20)
       = Some (Response 200 (Some (JObj dpage))) →
     dpage !! "results" = Some (JArr (JObj dpulse :: pulses)) →
     dpulse !! "indicators" = Some (JArr (indicator :: indicators)) →
     dpulse !! "references" = None →
     py_getitem indicator "type" = Ok ty →
     map_indicator_type ty = Ok bro_type →
     bro_type ≠ "Unsupported" →
     main server cfg mtime (S (S fuel))
       = (Uncaught KeyError,
          World [(initial_request (api_key cfg) mtime 20,
                  Some (Response 200 (Some (JObj dpage))))] [] [_HEADER])).
Proof.
  split; [|split].
  - intros pulse. split; [apply first_reference_index_error|]. split.
    + by intros ->.
    + intros Hne. destruct (first_reference pulse) as [|[]]; try reflexivity.
      by destruct Hne.
  - intros notice d indicator ty bro_type w Hd Hty Hm Hne.
    pose proof (build_fields_no_references notice d indicator ty bro_type Hd Hty Hm Hne)
      as Hb.
    split; [|split; [exact Hb|by apply main_indicator_raise]].
    unfold first_reference, mbind, result_bind. cbn [py_getitem]. by rewrite Hd.
  - intros server cfg mtime fuel dpage dpulse pulses indicators indicator ty bro_type
      Hsrv Hres Hinds Hd Hty Hm Hne.
    apply (main_first_indicator_raises server cfg mtime fuel dpage dpulse pulses
             indicator indicators KeyError Hsrv Hres Hinds).
    by eapply build_fields_no_references.
Qed.

Lemma fallback_url_exactly_on_index_error_witness :
  fst (main no_refs_server demo_cfg "2020-01-01T00:00:00" 2) = Uncaught KeyError.
Proof.
  assert (Hne : "Intel::ADDR" ≠ "Unsupported") by discriminate.
  exact (f_equal fst
    (proj2 (proj2 fallback_url_exactly_on_index_error) no_refs_server demo_cfg
       "2020-01-01T00:00:00" 0%nat _ _ [] [] ipv4_indicator (JStr "IPv4") "Intel::ADDR"
       eq_refl eq_refl eq_refl eq_refl eq_refl eq_refl Hne)).
Defined.

(** * Further properties of the code *)

Lemma while_chain server key mtime limit extra :
  ∀ rest d rs nx w prev,
    py_bool prev = true →
    page_ok server (length (sent w)) (next_page_request key prev) d rs nx →
    chain server key (S (length (sent w))) nx rest →
    iter_pulses_from server key mtime limit
      (length (all_results rs rest) + 2 * S (length rest) + 1 + extra) (GWhile prev) w
    = (all_results rs rest, Exhausted,
       logged_pages key w (next_page_request key prev) d nx rest).
Proof.
  induction rest as [|[[d' rs'] nx'] rest IH];
    intros d rs nx w prev Hprev (Hs & Hr & Hn) Hrest; cbn [chain] in Hrest.
  - unfold all_results. cbn [fmap list_fmap concat length Nat.mul]. rewrite app_nil_r.
    replace (length rs + (1 + (1 + 0)) + 1 + extra)%nat
      with (S (length rs + S (S extra)))%nat by lia.
    rewrite iter_pulses_from_S. cbn [gen_step]. rewrite Hprev, gen_step_fetch.
    rewrite (_get_200 _ _ _ _ _ _ (JObj d))
      by (rewrite (request_of_next key mtime 20 prev) by exact Hprev; exact Hs).
    cbn [py_getitem]. rewrite Hr. cbn [py_iter].
    rewrite iter_page_yields, iter_pulses_from_S. cbn [gen_step].
    rewrite gen_step_next. cbn [py_getitem]. rewrite Hn.
    rewrite iter_pulses_from_S. cbn [gen_step]. rewrite Hrest. cbn [mret M_ret logged_pages].
    rewrite app_nil_r, (request_of_next key mtime 20 prev) by exact Hprev. reflexivity.
  - destruct Hrest as (Hnx & Hpage & Hrest).
    replace (length (all_results rs ((d', rs', nx') :: rest))
             + 2 * S (length ((d', rs', nx') :: rest)) + 1 + extra)%nat
      with (S (length rs + S (length (all_results rs' rest)
                              + 2 * S (length rest) + 1 + extra)))%nat.
    2:{ unfold all_results. cbn [fmap list_fmap concat length fst snd].
        rewrite !length_app. lia. }
    rewrite iter_pulses_from_S. cbn [gen_step]. rewrite Hprev, gen_step_fetch.
    rewrite (_get_200 _ _ _ _ _ _ (JObj d))
      by (rewrite (request_of_next key mtime 20 prev) by exact Hprev; exact Hs).
    cbn [py_getitem]. rewrite Hr. cbn [py_iter].
    rewrite iter_page_yields, iter_pulses_from_S. cbn [gen_step].
    rewrite gen_step_next. cbn [py_getitem]. rewrite Hn.
    rewrite (request_of_next key mtime 20 prev) by exact Hprev.
    assert (Hlen : length (sent (logged w (next_page_request key prev)
                     (Some (Response 200 (Some (JObj d))))))
                   = S (length (sent w))).
    { cbn [logged sent]. rewrite length_app. cbn [length]. lia. }
    rewrite (IH d' rs' nx' _ nx Hnx).
    + unfold all_results. cbn [fmap list_fmap concat fst snd logged_pages]. reflexivity.
    + by rewrite Hlen.
    + by rewrite Hlen.
Qed.

Lemma logged_pages_length key w rq d nx rest :
  length (sent (logged_pages key w rq d nx rest)) = (length (sent w) + S (length rest))%nat.
Proof.
  revert w rq d nx. induction rest as [|[[d' rs'] nx'] rest IH]; intros w rq d nx.
  - cbn [logged_pages logged sent length]. rewrite length_app. cbn [length]. lia.
  - cbn [logged_pages]. rewrite IH. cbn [logged sent length]. rewrite length_app.
    cbn [length]. lia.
Qed.

(** X1. For any finite chain of pages, each answered 200 with a list of
    results and linked from the one before, the last one with a [next] that
    is false as a condition, the generator yields the results of all pages
    in order, one request per page, and is exhausted, however much fuel is
    left. *)
Theorem pages_in_order (server : nat → request → option response)
    (key mtime : string) (limit : Z) (w : world)
    (d : gmap string json) (rs : list json) (nx : json)
    (rest : list (gmap string json * list json * json)) (extra : nat) :
  page_ok server (length (sent w)) (initial_request key mtime limit) d rs nx →
  chain server key (S (length (sent w))) nx rest →
  let w' := logged_pages key w (initial_request key mtime limit) d nx rest in
  iter_pulses server key mtime limit
    (length (all_results rs rest) + 2 * S (length rest) + 1 + extra) w
  = (all_results rs rest, Exhausted, w') ∧
  length (sent w') = (length (sent w) + S (length rest))%nat.
Proof.
  intros (Hs & Hr & Hn) Hrest w'. split; [|apply logged_pages_length].
  unfold iter_pulses, w'. destruct rest as [|[[d' rs'] nx'] rest]; cbn [chain] in Hrest.
  - unfold all_results. cbn [fmap list_fmap concat length Nat.mul]. rewrite app_nil_r.
    replace (length rs + (1 + (1 + 0)) + 1 + extra)%nat
      with (S (length rs + S (S extra)))%nat by lia.
    rewrite iter_pulses_from_S. cbn [gen_step]. rewrite gen_step_fetch.
    rewrite (_get_200 _ _ _ _ _ _ (JObj d)) by exact Hs.
    cbn [py_getitem]. rewrite Hr. cbn [py_iter].
    rewrite iter_first_yields, iter_pulses_from_S. cbn [gen_step].
    rewrite gen_step_next. cbn [py_getitem]. rewrite Hn.
    rewrite iter_pulses_from_S. cbn [gen_step]. rewrite Hrest. cbn [mret M_ret logged_pages].
    rewrite app_nil_r. reflexivity.
  - destruct Hrest as (Hnx & Hpage & Hrest).
    replace (length (all_results rs ((d', rs', nx') :: rest))
             + 2 * S (length ((d', rs', nx') :: rest)) + 1 + extra)%nat
      with (S (length rs + S (length (all_results rs' rest)
                              + 2 * S (length rest) + 1 + extra)))%nat.
    2:{ unfold all_results. cbn [fmap list_fmap concat length fst snd].
        rewrite !length_app. lia. }
    rewrite iter_pulses_from_S. cbn [gen_step]. rewrite gen_step_fetch.
    rewrite (_get_200 _ _ _ _ _ _ (JObj d)) by exact Hs.
    cbn [py_getitem]. rewrite Hr. cbn [py_iter].
    rewrite iter_first_yields, iter_pulses_from_S. cbn [gen_step].
    rewrite gen_step_next. cbn [py_getitem]. rewrite Hn.
    assert (Hlen : length (sent (logged w (request_of key mtime limit (JStr EmptyString))
                     (Some (Response 200 (Some (JObj d))))))
                   = S (length (sent w))).
    { cbn [logged sent]. rewrite length_app. cbn [length]. lia. }
    rewrite (while_chain server key mtime limit extra rest d' rs' nx' _ nx Hnx).
    + unfold all_results. cbn [fmap list_fmap concat fst snd logged_pages]. reflexivity.
    + by rewrite Hlen.
    + by rewrite Hlen.
Qed.

Lemma pages_in_order_witness :
  fst (iter_pulses three_pages_server "KEY" "2020-01-01T00:00:00" 20 10 initial_world)
  = ([demo_pulse; empty_refs_pulse; yara_pulse], Exhausted).
Proof.
  refine (f_equal fst (proj1 (pages_in_order three_pages_server "KEY" "2020-01-01T00:00:00"
            20 initial_world _ [demo_pulse] (JStr "http://otx/page2")
            [(_, [], JStr "http://otx/page3");
             (_, [empty_refs_pulse; yara_pulse], JStr EmptyString)] 0 _ _))).
  - repeat split; reflexivity.
  - repeat split; reflexivity.
Defined.

Lemma request_log_ok_first key mtime limit a :
  request_log_ok key mtime limit [(initial_request key mtime limit, a)].
Proof.
  intros [|i] rq a' H.
  - by injection H as <- <-.
  - discriminate.
Qed.

Lemma request_log_ok_snoc key mtime limit log rq' r nx a :
  request_log_ok key mtime limit log →
  last log = Some (rq', Some r) →
  status_code r = 200 → next_of r = Some nx → py_bool nx = true →
  request_log_ok key mtime limit (log ++ [(next_page_request key nx, a)]).
Proof.
  intros Hok Hlast H200 Hnx Hb i rq a' H.
  assert (Hne : log ≠ []) by (intros ->; discriminate).
  destruct (decide (i < length log)%nat) as [Hlt|Hge].
  - rewrite lookup_app_l in H by exact Hlt. specialize (Hok i rq a' H).
    destruct i as [|i']; [exact Hok|].
    destruct Hok as (rq0 & r0 & nx0 & Hl & Hrest). exists rq0, r0, nx0.
    split; [|exact Hrest]. rewrite lookup_app_l; [exact Hl|lia].
  - rewrite lookup_app_r in H by lia.
    destruct (i - length log)%nat as [|k] eqn:Hk; [|by destruct k].
    injection H as <- <-.
    assert (i = length log) as -> by lia.
    destruct log as [|x log'] eqn:Hlog; [done|]. rewrite <- Hlog in *.
    replace (length log) with (S (length log')) by (by rewrite Hlog).
    exists rq', r, nx. split; [|done].
    rewrite lookup_app_l by (rewrite Hlog; cbn [length]; lia).
    rewrite last_lookup in Hlast. rewrite Hlog in Hlast. cbn [length Nat.pred] in Hlast.
    by rewrite Hlog.
Qed.

Lemma _get_sent server key mtime limit next_request w res w' :
  _get server key mtime limit next_request w = (res, w') →
  let rq := request_of key mtime limit next_request in
  let a := server (length (sent w)) rq in
  sent w' = sent w ++ [(rq, a)] ∧
  (∀ j, res = Ok j → j ≠ JNull →
        ∃ r, a = Some r ∧ status_code r = 200 ∧ body r = Some j).
Proof.
  rewrite _get_unfold. cbn zeta.
  destruct (server _ _) as [r|]; [|by intros [= <- <-]].
  destruct (status_code r =? 200) eqn:H200.
  { apply Z.eqb_eq in H200. destruct (body r) eqn:Hb; intros [= <- <-];
      (split; [done|]); [|discriminate].
    intros j' [= <-] _. by exists r. }
  destruct (status_code r =? 403); [by intros [= <- <-]|].
  destruct (status_code r =? 400); [by intros [= <- <-]|].
  intros [= <- <-]. split; [done|]. by intros j [= <-] Hj.
Qed.

Lemma fetch_inv server key mtime limit limit' next_request w res w'
    (k : list json → json → gen_state) :
  (json_data ← _get server key mtime limit' next_request;
   results ← lift (py_getitem json_data "results");
   items ← lift (py_iter results);
   mret (Tau (k items json_data))) w = (res, w') →
  request_log_ok key mtime limit
    (sent w ++ [(request_of key mtime limit' next_request,
                 server (length (sent w)) (request_of key mtime limit' next_request))]) →
  request_log_ok key mtime limit (sent w') ∧
  (∀ ev, res = Ok ev →
     ∃ items j rq r,
       ev = Tau (k items j) ∧
       last (sent w') = Some (rq, Some r) ∧ status_code r = 200 ∧ body r = Some j).
Proof.
  rewrite gen_step_fetch. intros H Hok.
  destruct (_get server key mtime limit' next_request w) as [[j|e] w1] eqn:Hg;
    apply _get_sent in Hg as [Hs Hj]; cbn zeta in Hs, Hj.
  - destruct (py_getitem j "results") as [results|e] eqn:Hr.
    + assert (Hnn : j ≠ JNull) by (intros ->; discriminate).
      destruct (Hj j eq_refl Hnn) as (r & Ha & H200 & Hb).
      destruct (py_iter results) as [items|e]; injection H as <- <-.
      * split; [by rewrite Hs|].
        intros ev [= <-]. exists items, j, (request_of key mtime limit' next_request), r.
        by rewrite Hs, last_snoc, Ha.
      * split; [by rewrite Hs|discriminate].
    + injection H as <- <-. split; [by rewrite Hs|discriminate].
  - injection H as <- <-. split; [by rewrite Hs|discriminate].
Qed.

Lemma next_of_getitem (r : response) (j nx : json) :
  body r = Some j → py_getitem j "next" = Ok nx → next_of r = Some nx.
Proof.
  intros Hb Hn. unfold next_of. rewrite Hb.
  destruct j as [| | | | |d]; try discriminate. cbn [py_getitem] in Hn.
  by destruct (d !! "next"); [injection Hn as ->|].
Qed.

Lemma gen_step_inv server key mtime limit g w res w' :
  gen_inv key mtime limit g (sent w) →
  gen_step server key mtime limit g w = (res, w') →
  request_log_ok key mtime limit (sent w') ∧
  (∀ g', res = Ok (Tau g') → gen_inv key mtime limit g' (sent w')) ∧
  (∀ y g', res = Ok (Yield y g') → gen_inv key mtime limit g' (sent w')).
Proof.
  intros [Hok Hg].
  destruct g as [|[|result rest] initial_results|next_request|[|result rest] json_data];
    cbn [gen_step].
  - intros H. apply (fetch_inv _ key mtime limit) in H as [Hok' Hev].
    + split; [exact Hok'|]. split; [|intros y g' Heq; by destruct (Hev _ Heq) as (?&?&?&?&?&_)].
      intros g' Heq. destruct (Hev _ Heq) as (items & j & rq & r & [= ->] & Hl & H2 & Hb).
      split; [exact Hok'|]. by exists rq, r.
    + rewrite Hg. apply request_log_ok_first.
  - rewrite gen_step_next. destruct Hg as (rq & r & Hl & H2 & Hb).
    destruct (py_getitem initial_results "next") as [nx|] eqn:Hn; intros [= <- <-];
      (split; [exact Hok|]); (split; [|discriminate]).
    + intros g' [= <-]. split; [exact Hok|]. exists rq, r.
      split; [done|]. split; [done|]. by eapply next_of_getitem.
    + discriminate.
  - intros [= <- <-]. split; [exact Hok|]. split; [discriminate|].
    intros y g' [= <- <-]. by split.
  - destruct Hg as (rq & r & Hl & H2 & Hnx).
    destruct (py_bool next_request) eqn:Hb.
    + intros H. apply (fetch_inv _ key mtime limit) in H as [Hok' Hev].
      * split; [exact Hok'|].
        split; [|intros y g' Heq; by destruct (Hev _ Heq) as (?&?&?&?&?&_)].
        intros g' Heq. destruct (Hev _ Heq) as (items & j & rq1 & r1 & [= ->] & Hl1 & H21 & Hb1).
        split; [exact Hok'|]. by exists rq1, r1.
      * rewrite (request_of_next key mtime 20 next_request) by exact Hb.
        by eapply request_log_ok_snoc.
    + intros [= <- <-]. split; [exact Hok|]. split; discriminate.
  - rewrite gen_step_next. destruct Hg as (rq & r & Hl & H2 & Hb).
    destruct (py_getitem json_data "next") as [nx|] eqn:Hn; intros [= <- <-];
      (split; [exact Hok|]); (split; [|discriminate]).
    + intros g' [= <-]. split; [exact Hok|]. exists rq, r.
      split; [done|]. split; [done|]. by eapply next_of_getitem.
    + discriminate.
  - intros [= <- <-]. split; [exact Hok|]. split; [discriminate|].
    intros y g' [= <- <-]. by split.
Qed.

Lemma iter_pulses_from_log server key mtime limit fuel :
  ∀ g w, gen_inv key mtime limit g (sent w) →
    request_log_ok key mtime limit
      (sent (snd (iter_pulses_from server key mtime limit fuel g w))).
Proof.
  induction fuel as [|fuel IH]; intros g w Hinv.
  - exact (proj1 Hinv).
  - rewrite iter_pulses_from_S.
    destruct (gen_step server key mtime limit g w) as [[[y g'|g'|]|e] w1] eqn:Hg;
      apply (gen_step_inv _ _ _ _ _ _ _ _ Hinv) in Hg as (Hok & Htau & Hyield).
    + specialize (IH g' w1 (Hyield _ _ eq_refl)).
      by destruct (iter_pulses_from _ _ _ _ fuel g' w1) as [[ys e] w2].
    + exact (IH g' w1 (Htau _ eq_refl)).
    + exact Hok.
    + exact Hok.
Qed.

Lemma main_pulses_request_log server key mtime notice fuel :
  ∀ g w, gen_inv key mtime 20 g (sent w) →
    request_log_ok key mtime 20
      (sent (snd (main_pulses server key mtime notice fuel g w))).
Proof.
  induction fuel as [|fuel IH]; intros g w Hinv.
  - exact (proj1 Hinv).
  - rewrite main_pulses_S.
    destruct (gen_step server key mtime 20 g w) as [[[y g'|g'|]|e] w1] eqn:Hg;
      apply (gen_step_inv _ _ _ _ _ _ _ _ Hinv) in Hg as (Hok & Htau & Hyield).
    + destruct (main_pulse notice y w1) as [[[]|e] w2] eqn:Hp;
        apply main_pulse_written in Hp as [[Hs _] _].
      * apply IH. rewrite Hs. exact (Hyield _ _ eq_refl).
      * cbn [snd]. by rewrite Hs.
    + exact (IH g' w1 (Htau _ eq_refl)).
    + exact Hok.
    + exact Hok.
Qed.

Lemma request_log_ok_headers key mtime limit log :
  request_log_ok key mtime limit log →
  Forall (fun x => req_headers x.1 = [("X-OTX-API-KEY", key)]) log.
Proof.
  intros Hok. apply Forall_lookup. intros i [rq a] Hi.
  specialize (Hok i rq a Hi). destruct i as [|i'].
  - by rewrite Hok.
  - destruct Hok as (? & ? & ? & _ & _ & _ & _ & ->). reflexivity.
Qed.

(** X2. In any run, the first request is the one to the fixed URL with
    the [limit] and [modified_since] parameters; every later request goes,
    without parameters, to the [next] link of the page that answered the
    request before it; every request carries the API key header and nothing
    else. *)
Theorem requests_follow_the_links (server : nat → request → option response)
    (cfg : config) (key mtime : string) (limit : Z) (fuel : nat) :
  request_log_ok (api_key cfg) mtime 20 (sent (snd (main server cfg mtime fuel))) ∧
  Forall (fun x => req_headers x.1 = [("X-OTX-API-KEY", api_key cfg)])
    (sent (snd (main server cfg mtime fuel))) ∧
  request_log_ok key mtime limit
    (sent (snd (iter_pulses server key mtime limit fuel initial_world))).
Proof.
  assert (Hmain : request_log_ok (api_key cfg) mtime 20
                    (sent (snd (main server cfg mtime fuel)))).
  { rewrite main_unfold. cbn [snd]. apply main_pulses_request_log.
    split; [|reflexivity]. intros i rq a H. destruct i; discriminate. }
  split; [exact Hmain|]. split; [by eapply request_log_ok_headers|].
  apply iter_pulses_from_log. split; [|reflexivity].
  intros i rq a H. destruct i; discriminate.
Qed.

Lemma main_pulses_mirror server key mtime notice fuel :
  ∀ g w pulses ps e w1 x,
    iter_pulses_from server key mtime 20 fuel g w = (pulses, e, w1) →
    decode_list decode_pulse pulses = Some ps →
    forallb known_types ps = true →
    ascii_only (flat_map (spec_records notice) ps) = true →
    main_pulses server key mtime notice fuel g (with_written w x) =
      (result_of_end e, with_written w1 (x ++ flat_map (spec_records notice) ps)).
Proof.
  induction fuel as [|fuel IH]; intros g w pulses ps e w1 x Hit Hd Hk Ha.
  - injection Hit as <- <- <-. injection Hd as <-. simpl. by rewrite app_nil_r.
  - rewrite main_pulses_S, gen_step_frame. rewrite iter_pulses_from_S in Hit.
    destruct (gen_step server key mtime 20 g w) as [[[pulse g'|g'|]|ex] w'].
    + destruct (iter_pulses_from server key mtime 20 fuel g' w') as [[ys e'] w''] eqn:Hrec.
      injection Hit as <- -> ->.
      simpl in Hd. destruct (decode_pulse pulse) as [p|] eqn:Hp; [|discriminate].
      simpl in Hd. destruct (decode_list decode_pulse ys) as [ps'|] eqn:Hps; [|discriminate].
      injection Hd as <-. cbn [forallb] in Hk. apply andb_prop in Hk as [Hk1 Hk2].
      cbn [flat_map] in Ha. unfold ascii_only in Ha. rewrite forallb_app in Ha.
      apply andb_prop in Ha as [Ha1 Ha2].
      cbn [fst snd]. rewrite (main_pulse_decoded notice pulse p _ Hp Hk1 Ha1).
      change (with_written (with_written w' x)
                (written (with_written w' x) ++ spec_records notice p))
        with (with_written w' (x ++ spec_records notice p)).
      rewrite (IH g' w' ys ps' e w1 _ Hrec Hps Hk2 Ha2).
      cbn [flat_map]. by rewrite app_assoc.
    + cbn [fst snd]. by apply IH with (pulses := pulses).
    + injection Hit as <- <- <-. injection Hd as <-. simpl. by rewrite app_nil_r.
    + injection Hit as <- <- <-. injection Hd as <-. simpl. by rewrite app_nil_r.
Qed.

(** X3. However the fetch ends, exhausted or on an exception, when the
    pulses yielded before have the documented shape with type tags of the
    table and records of ASCII text, their records are in the file, after
    the header, and the process ends as the fetch did: for a 403 on the
    second page, the records of the first page are written and the exit
    code is 1. *)
Theorem records_written_before_the_fetch_fails
    (server : nat → request → option response) (cfg : config) (mtime : string)
    (fuel : nat) (pulses : list json) (ps : list otx_pulse) (e : gen_end) (w1 : world) :
  iter_pulses server (api_key cfg) mtime 20 fuel initial_world = (pulses, e, w1) →
  decode_list decode_pulse pulses = Some ps →
  forallb known_types ps = true →
  ascii_only (flat_map (spec_records (do_notice cfg)) ps) = true →
  main server cfg mtime fuel =
    (outcome_of (result_of_end e),
     with_written w1 (_HEADER :: flat_map (spec_records (do_notice cfg)) ps)).
Proof.
  intros Hit Hd Hk Ha. rewrite main_unfold.
  change (World [] [] [_HEADER]) with (with_written initial_world [_HEADER]).
  by rewrite (main_pulses_mirror server _ mtime (do_notice cfg) fuel GStart
                initial_world pulses ps e w1 [_HEADER] Hit Hd Hk Ha).
Qed.

Lemma records_written_before_the_fetch_fails_witness :
  main forbidden_second_page_server demo_cfg "2020-01-01T00:00:00" 9 =
    (Exited 1,
     World
       [(initial_request "KEY" "2020-01-01T00:00:00" 20,
         Some (page [demo_pulse] (JStr "http://otx/page2")));
        (next_page_request "KEY" (JStr "http://otx/page2"), Some (Response 403 None))]
       [msg_403]
       [_HEADER; demo_line "T"]).
Proof.
  exact (records_written_before_the_fetch_fails forbidden_second_page_server demo_cfg
           "2020-01-01T00:00:00" 9%nat [demo_pulse] [demo_pulse_model]
           (Raised (SystemExit 1))
           (World
              [(initial_request "KEY" "2020-01-01T00:00:00" 20,
                Some (page [demo_pulse] (JStr "http://otx/page2")));
               (next_page_request "KEY" (JStr "http://otx/page2"),
                Some (Response 403 None))]
              [msg_403] [])
           eq_refl eq_refl eq_refl eq_refl).
Defined.



Lemma py_getitem_error v k e : py_getitem v k = Raise e → lookup_error e.
Proof.
  destruct v as [| | | | |d]; cbn [py_getitem]; try (intros [= <-]; by right).
  destruct (d !! k); [discriminate|]. intros [= <-]. by left.
Qed.

Lemma py_iter_error v e : py_iter v = Raise e → lookup_error e.
Proof. destruct v; cbn [py_iter]; try discriminate; intros [= <-]; by right. Qed.

Lemma map_indicator_type_error ty e : map_indicator_type ty = Raise e → lookup_error e.
Proof.
  destruct ty as [| | |t| |]; cbn [map_indicator_type];
    try (intros [= <-]; (by left) || (by right)).
  destruct (_MAP !! t); [discriminate|]. intros [= <-]. by left.
Qed.

Lemma resolve_url_error pulse e :
  try_except_IndexError (first_reference pulse) (Ok (JStr fallback_url)) = Raise e →
  lookup_error e.
Proof.
  unfold first_reference, mbind, result_bind.
  destruct (py_getitem pulse "references") as [refs|e'] eqn:Hr.
  - destruct refs as [| | |s|l|d]; cbn [py_getitem0 try_except_IndexError];
      try (intros [= <-]; (by left) || (by right)).
    + destruct s; [discriminate|discriminate].
    + destruct l; discriminate.
  - apply py_getitem_error in Hr. destruct Hr as [-> | ->]; intros [= <-];
      [by left|by right].
Qed.

Lemma as_strs_error fields e : as_strs fields = Raise e → e = TypeError.
Proof.
  revert e. induction fields as [|j rest IH]; intros e H; [discriminate|].
  cbn [as_strs] in H. destruct j; try (by injection H as <-).
  unfold mbind, result_bind in H. destruct (as_strs rest) as [ss|e''] eqn:Hrest;
    [discriminate|]. injection H as <-. by apply IH.
Qed.

Lemma str_join_error sep fields e :
  str_join sep fields = Raise e → e = TypeError ∨ e = UnicodeDecodeError.
Proof.
  unfold str_join, mbind, result_bind.
  destruct (as_strs fields) as [ss|e'] eqn:H.
  - destruct (last ss) as [notice|]; [|discriminate].
    destruct (is_ascii notice); [discriminate|]. intros [= <-]. by right.
  - intros [= <-]. left. by eapply as_strs_error.
Qed.

Lemma build_fields_error notice pulse indicator e :
  build_fields notice pulse indicator = Raise e → lookup_error e.
Proof.
  unfold build_fields, mbind, result_bind.
  destruct (py_getitem indicator "type") as [ty|] eqn:Hty;
    [|intros [= <-]; by eapply py_getitem_error].
  destruct (map_indicator_type ty) as [bro_type|] eqn:Hm;
    [|intros [= <-]; by eapply map_indicator_type_error].
  destruct (String.eqb bro_type "Unsupported"); [discriminate|].
  destruct (try_except_IndexError _ _) as [url|] eqn:Hurl;
    [|intros [= <-]; by eapply resolve_url_error].
  destruct (py_getitem indicator "indicator") as [value|] eqn:Hv;
    [|intros [= <-]; by eapply py_getitem_error].
  destruct (py_getitem pulse "author_name") as [author|] eqn:Ha;
    [|intros [= <-]; by eapply py_getitem_error].
  discriminate.
Qed.

Lemma main_indicator_error notice pulse indicator w e w' :
  main_indicator notice pulse indicator w = (Raise e, w') → writer_error e ∧ w' = w.
Proof.
  rewrite main_indicator_unfold.
  destruct (build_fields notice pulse indicator) as [[fields|]|e'] eqn:Hb.
  - destruct (str_join TAB fields) as [line|e'] eqn:Hj.
    + destruct (is_ascii line); [discriminate|].
      intros [= <- <-]. split; [|done]. by do 3 right.
    + intros [= <- <-]. split; [|done].
      apply str_join_error in Hj as [->| ->]; [by right; left|by do 2 right; left].
  - discriminate.
  - intros [= <- <-]. split; [|done].
    apply build_fields_error in Hb as [->| ->]; [by left|by right; left].
Qed.

Lemma main_indicators_error notice pulse indicators w e w' :
  main_indicators notice pulse indicators w = (Raise e, w') → writer_error e.
Proof.
  revert w. induction indicators as [|indicator rest IH]; intros w; [discriminate|].
  rewrite main_indicators_cons.
  destruct (main_indicator notice pulse indicator w) as [[[]|e'] w1] eqn:H1.
  - apply IH.
  - intros [= <- <-]. by apply main_indicator_error in H1 as [H1 _].
Qed.

Lemma main_pulse_error notice pulse w w' e :
  main_pulse notice pulse w = (Raise e, w') → writer_error e.
Proof.
  intros H. rewrite main_pulse_unfold in H.
  destruct (py_getitem pulse "indicators") as [indicators|] eqn:Hi.
  - destruct (py_iter indicators) as [items|] eqn:Hit.
    + by eapply main_indicators_error.
    + injection H as <- <-.
      apply py_iter_error in Hit as [->| ->]; [by left|by right; left].
  - injection H as <- <-.
    apply py_getitem_error in Hi as [->| ->]; [by left|by right; left].
Qed.



Lemma _get_exit server key mtime limit next_request w c w' :
  _get server key mtime limit next_request w = (Raise (SystemExit c), w') →
  ∃ rq r, sent w' = sent w ++ [(rq, Some r)] ∧ fatal (Some r) = true.
Proof.
  rewrite _get_unfold. cbn zeta.
  destruct (server _ _) as [r|] eqn:Hs; [|discriminate].
  destruct (status_code r =? 200); [destruct (body r); discriminate|].
  destruct (status_code r =? 403) eqn:H403.
  { intros [= <- <-]. eexists _, r. split; [reflexivity|]. simpl. by rewrite H403. }
  destruct (status_code r =? 400) eqn:H400; [|discriminate].
  intros [= <- <-]. eexists _, r. split; [reflexivity|]. simpl. by rewrite H403, H400.
Qed.

Lemma fetch_exit server key mtime limit next_request w c w'
    (k : list json → json → gen_state) :
  (json_data ← _get server key mtime limit next_request;
   results ← lift (py_getitem json_data "results");
   items ← lift (py_iter results);
   mret (Tau (k items json_data))) w = (Raise (SystemExit c), w') →
  ∃ rq r, sent w' = sent w ++ [(rq, Some r)] ∧ fatal (Some r) = true.
Proof.
  rewrite gen_step_fetch.
  destruct (_get server key mtime limit next_request w) as [[j|e] w1] eqn:Hg.
  - destruct (py_getitem j "results") as [results|e] eqn:Hr.
    + destruct (py_iter results) eqn:Hi; [discriminate|].
      intros [= -> <-]. apply py_iter_error in Hi. by destruct Hi.
    + intros [= -> <-]. apply py_getitem_error in Hr. by destruct Hr.
  - intros [= -> <-]. by eapply _get_exit.
Qed.

Lemma gen_step_exit server key mtime limit g w c w' :
  gen_step server key mtime limit g w = (Raise (SystemExit c), w') →
  ∃ rq r, sent w' = sent w ++ [(rq, Some r)] ∧ fatal (Some r) = true.
Proof.
  destruct g as [|[|result rest] initial_results|next_request|[|result rest] json_data];
    cbn [gen_step]; try discriminate.
  - apply fetch_exit.
  - rewrite gen_step_next. destruct (py_getitem _ _) eqn:Hn; [discriminate|].
    intros [= -> <-]. apply py_getitem_error in Hn. by destruct Hn.
  - destruct (py_bool next_request); [apply fetch_exit|discriminate].
  - rewrite gen_step_next. destruct (py_getitem _ _) eqn:Hn; [discriminate|].
    intros [= -> <-]. apply py_getitem_error in Hn. by destruct Hn.
Qed.

Lemma main_pulses_exit server key mtime notice fuel :
  ∀ g w c w',
    main_pulses server key mtime notice fuel g w = (Raise (SystemExit c), w') →
    ∃ pre rq r, sent w' = sent w ++ pre ++ [(rq, Some r)] ∧ fatal (Some r) = true.
Proof.
  induction fuel as [|fuel IH]; intros g w c w'; [discriminate|].
  rewrite main_pulses_S.
  destruct (gen_step server key mtime 20 g w) as [[[pulse g'|g'|]|e] w1] eqn:Hg.
  - apply gen_step_log in Hg as [_ H2]. destruct (H2 _ eq_refl) as (n1 & Hs1 & _).
    destruct (main_pulse notice pulse w1) as [[[]|e] w2] eqn:Hp.
    + apply main_pulse_written in Hp as [[Hs2 _] _].
      intros H. apply IH in H as (pre & rq & r & Hs & Hf).
      exists (n1 ++ pre), rq, r. split; [|done]. by rewrite Hs, Hs2, Hs1, !app_assoc.
    + intros [= -> <-].
      apply main_pulse_error in Hp. by destruct Hp as [?|[?|[?|?]]].
  - apply gen_step_log in Hg as [_ H2]. destruct (H2 _ eq_refl) as (n1 & Hs1 & _).
    intros H. apply IH in H as (pre & rq & r & Hs & Hf).
    exists (n1 ++ pre), rq, r. split; [|done]. by rewrite Hs, Hs1, !app_assoc.
  - discriminate.
  - intros [= -> <-]. apply gen_step_exit in Hg as (rq & r & Hs & Hf).
    by exists [], rq, r.
Qed.

(** X6. A run either exits with code 1 after printing exactly one of the
    two messages, the last response having status 403 or 400, or prints
    nothing at all, never exits through [sys.exit] and got no 403 or 400;
    the exit code of a run that ended is 0 or 1. *)
Theorem exit_code_and_terminal_output (server : nat → request → option response)
    (cfg : config) (mtime : string) (fuel : nat) :
  let o := fst (main server cfg mtime fuel) in
  let w := snd (main server cfg mtime fuel) in
  ((o = Exited 1 ∧
    ∃ rq r, last (sent w) = Some (rq, Some r) ∧
            ((status_code r = 403 ∧ stdout w = [msg_403]) ∨
             (status_code r = 400 ∧ stdout w = [msg_400]))) ∨
   ((∀ c, o ≠ Exited c) ∧ stdout w = [] ∧
    Forall (fun x => fatal x.2 = false) (sent w))) ∧
  (exit_code o = None ∨ exit_code o = Some 0 ∨ exit_code o = Some 1).
Proof.
  cbv zeta. rewrite main_unfold. cbn [fst snd].
  destruct (main_pulses _ _ _ _ _ _ _) as [res w'] eqn:H. cbn [fst snd].
  pose proof (main_pulses_log _ _ _ _ _ _ _ _ _ H) as [(new & Hs & Hl) _].
  cbn [sent stdout app] in Hs, Hl.
  assert (Hcases :
    (outcome_of res = Exited 1 ∧
     ∃ rq r, last (sent w') = Some (rq, Some r) ∧
             ((status_code r = 403 ∧ stdout w' = [msg_403]) ∨
              (status_code r = 400 ∧ stdout w' = [msg_400]))) ∨
    ((∀ c, outcome_of res ≠ Exited c) ∧ stdout w' = [] ∧
     Forall (fun x => fatal x.2 = false) (sent w'))).
  { destruct Hl as [[Hnf Hout]|(pre & rq & r & -> & Hpre & Hr & He & Ho)].
    - right. split; [|split; [exact Hout|by rewrite Hs]].
      intros c Hc. destruct res as [[]|[]]; try discriminate.
      apply main_pulses_exit in H as (pre & rq & r & Hs' & Hf).
      cbn [sent app] in Hs'. rewrite Hs in Hs'. subst new.
      rewrite Forall_app in Hnf. destruct Hnf as [_ Hnf].
      rewrite Forall_singleton in Hnf. cbn [snd] in Hnf. congruence.
    - left. destruct res as [b|e]; [discriminate|]. injection He as ->.
      split; [reflexivity|]. exists rq, r. rewrite Hs, last_snoc. split; [done|].
      cbn [app] in Ho. unfold fatal_message in Ho. simpl in Hr.
      destruct (status_code r =? 403) eqn:H403.
      + left. by apply Z.eqb_eq in H403.
      + right. simpl in Hr. by apply Z.eqb_eq in Hr. }
  split; [exact Hcases|].
  destruct Hcases as [[-> _]|[Hne _]]; [by right; right|].
  destruct (outcome_of res) as [| c | e |]; cbn [exit_code]; auto.
  by destruct (Hne c).
Qed.

Lemma append_assoc (a b c : string) : (a +:+ b) +:+ c = a +:+ (b +:+ c).
Proof.
  induction a as [|x a IH]; [reflexivity|].
  change (String x ((a +:+ b) +:+ c) = String x (a +:+ (b +:+ c))). by rewrite IH.
Qed.

Lemma count_char_app c (a b : string) :
  count_char c (a +:+ b) = (count_char c a + count_char c b)%nat.
Proof. induction a as [|x a IH]; [reflexivity|]. simpl. rewrite IH. lia. Qed.

Lemma split_on_length c s : length (split_on c s) = S (count_char c s).
Proof.
  induction s as [|a s IH]; [reflexivity|]. simpl.
  destruct (Ascii.eqb a c); simpl; [by rewrite IH|].
  destruct (split_on c s); simpl in *; lia.
Qed.

Lemma split_on_free c s : count_char c s = 0%nat → split_on c s = [s].
Proof.
  induction s as [|a s IH]; [reflexivity|]. simpl.
  destruct (Ascii.eqb a c); [discriminate|]. simpl. intros H. by rewrite IH.
Qed.

Lemma split_on_app c (v rest : string) :
  count_char c v = 0%nat →
  split_on c (v +:+ String c rest) = v :: split_on c rest.
Proof.
  induction v as [|a v IH]; simpl.
  - by rewrite Ascii.eqb_refl.
  - destruct (Ascii.eqb a c); [discriminate|]. simpl. intros H. by rewrite IH.
Qed.

Lemma count_char_concat c (sep : string) (ss : list string) :
  count_char c (String.concat sep ss)
  = (sum_list (count_char c <$> ss) + (length ss - 1) * count_char c sep)%nat.
Proof.
  induction ss as [|s ss IH]; [reflexivity|].
  destruct ss as [|s' ss]; [simpl; lia|].
  change (String.concat sep (s :: s' :: ss))
    with (s +:+ sep +:+ String.concat sep (s' :: ss)).
  rewrite !count_char_app, IH. cbn [fmap list_fmap sum_list length].
  rewrite !Nat.sub_succ, !Nat.sub_0_r. cbn [Nat.mul]. unfold id. lia.
Qed.

(** Joining with tabs and splitting on tabs gives the items back when no
    item holds a tab. *)
Lemma split_concat_tab (ss : list string) :
  ss ≠ [] →
  Forall (fun s => count_char tab_char s = 0%nat) ss →
  split_on tab_char (String.concat TAB ss) = ss.
Proof.
  induction ss as [|s ss IH]; [done|]. intros _ Hall.
  apply Forall_cons in Hall as [Hs Hall].
  destruct ss as [|s' ss]; [by apply split_on_free|].
  change (String.concat TAB (s :: s' :: ss))
    with (s +:+ String tab_char (String.concat TAB (s' :: ss))).
  rewrite split_on_app by exact Hs. f_equal. by apply IH.
Qed.

Lemma record_strings notice pulse indicator fields line :
  build_fields notice pulse indicator = Ok (Some fields) →
  str_join TAB fields = Ok line →
  ∃ v c a u,
    fields = JStr <$> [v; c; a; u; notice +:+ NL] ∧
    line = String.concat TAB [v; c; a; u; notice +:+ NL] ∧
    c ≠ "Unsupported" ∧
    count_char tab_char c = 0%nat ∧ count_char nl_char c = 0%nat.
Proof.
  intros Hb Hj.
  apply build_fields_inv in Hb
    as (ty & bro_type & url & value & author & _ & Hm & Hne & _ & _ & _ & ->).
  apply str_join_inv in Hj as (ss & Hss & ->).
  apply as_strs_inv in Hss.
  destruct ss as [|v [|b [|a [|u [|n [|]]]]]]; try discriminate.
  simpl in Hss. injection Hss as -> Hb -> -> Hn. subst b n.
  exists v, bro_type, a, u. split; [done|]. split; [done|]. split; [done|].
  apply supported_tag in Hm as (t & c & _ & _ & _ & ->); [|done].
  by destruct c.
Qed.

(** X7. A record written for an indicator is made of five strings; split
    on tabs it has five columns plus one for every tab inside these strings
    (nothing is escaped), and when none of them holds a tab the columns are
    the five strings. *)
Theorem record_columns (notice : string) (pulse indicator : json)
    (fields : list json) (line : string) :
  build_fields notice pulse indicator = Ok (Some fields) →
  str_join TAB fields = Ok line →
  ∃ ss,
    fields = JStr <$> ss ∧ length ss = 5%nat ∧
    length (split_on tab_char line)
      = (5 + sum_list (count_char tab_char <$> ss))%nat ∧
    (Forall (fun s => count_char tab_char s = 0%nat) ss →
     split_on tab_char line = ss).
Proof.
  intros Hb Hj.
  destruct (record_strings _ _ _ _ _ Hb Hj) as (v & c & a & u & -> & -> & _ & _ & _).
  exists [v; c; a; u; notice +:+ NL]. split; [done|]. split; [done|]. split.
  - rewrite split_on_length, count_char_concat. cbn [length]. simpl (count_char _ TAB). lia.
  - intros Hall. by apply split_concat_tab.
Qed.

Lemma record_columns_witness :
  ∃ ss,
    [JStr "1.2.3.4"; JStr "Intel::ADDR"; JStr "X"; JStr "http://r"; JStr ("T" +:+ NL)]
      = JStr <$> ss ∧ length ss = 5%nat ∧
    length (split_on tab_char (demo_line "T"))
      = (5 + sum_list (count_char tab_char <$> ss))%nat ∧
    (Forall (fun s => count_char tab_char s = 0%nat) ss →
     split_on tab_char (demo_line "T") = ss).
Proof.
  exact (record_columns "T" demo_pulse ipv4_indicator _ (demo_line "T") eq_refl eq_refl).
Defined.

(** X8. In any run, every chunk written after the header ends with the
    notice flag and a newline; its number of newlines is one more than those
    inside the value, the author, the URL and the notice flag. *)
Theorem records_end_with_newline (server : nat → request → option response)
    (cfg : config) (mtime : string) (fuel : nat) :
  ∃ records,
    written (snd (main server cfg mtime fuel)) = _HEADER :: records ∧
    Forall (fun line =>
      ∃ v c a u,
        line = v +:+ TAB +:+ c +:+ TAB +:+ a +:+ TAB +:+ u +:+ TAB +:+
               do_notice cfg +:+ NL ∧
        count_char nl_char line
          = (1 + count_char nl_char v + count_char nl_char a + count_char nl_char u
             + count_char nl_char (do_notice cfg))%nat) records.
Proof.
  destruct (main_written server cfg mtime fuel) as (records & Hw & Hr).
  exists records. split; [exact Hw|].
  eapply Forall_impl; [exact Hr|].
  intros line (pulse & indicator & fields & Hb & Hj).
  destruct (record_strings _ _ _ _ _ Hb Hj) as (v & c & a & u & _ & -> & _ & _ & Hc).
  exists v, c, a, u. split; [reflexivity|].
  rewrite count_char_concat. cbn [fmap list_fmap sum_list length].
  rewrite count_char_app, Hc. unfold id. simpl (count_char nl_char TAB).
  simpl (count_char nl_char NL). lia.
Qed.

Lemma main_indicators_all_unsupported (notice : string) (pulse : json)
    (items : list json) (w : world) :
  Forall (fun indicator =>
            ∃ ty, py_getitem indicator "type" = Ok ty ∧
                  map_indicator_type ty = Ok "Unsupported") items →
  main_indicators notice pulse items w = (Ok (), w).
Proof.
  intros Hall. induction Hall as [|indicator rest (ty & Hty & Hm) _ IH]; [reflexivity|].
  rewrite main_indicators_cons, main_indicator_skip; [exact IH|].
  unfold build_fields, mbind, result_bind. by rewrite Hty, Hm.
Qed.

(** X9. A pulse whose indicators all map to the unsupported sentinel is
    processed without error and without output whatever else it holds or
    lacks: the author, the references and the indicator values are looked
    up for retained indicators only. *)
Theorem pulse_without_retained_indicator (notice : string) (d : gmap string json)
    (items : list json) (w : world) :
  d !! "indicators" = Some (JArr items) →
  Forall (fun indicator =>
            ∃ ty, py_getitem indicator "type" = Ok ty ∧
                  map_indicator_type ty = Ok "Unsupported") items →
  main_pulse notice (JObj d) w = (Ok (), w).
Proof.
  intros Hd Hall. rewrite main_pulse_unfold.
  cbn [py_getitem]. rewrite Hd. cbn [py_iter].
  by apply main_indicators_all_unsupported.
Qed.

Lemma pulse_without_retained_indicator_witness :
  main_pulse "T" cve_only_pulse initial_world = (Ok (), initial_world).
Proof.
  apply (pulse_without_retained_indicator "T" _
           [obj [("type", JStr "CVE")]; obj [("type", JStr "Mutex"); ("x", JNull)]]).
  - reflexivity.
  - repeat (apply Forall_cons; split;
            [eexists; split; reflexivity|]).
    by apply Forall_nil.
Defined.

(** X10. When the list [fields] built for an indicator holds an item that
    is not a string (a null author, a number as value), the join raises the
    type error and nothing is written for that indicator. *)
Theorem non_string_field_is_a_type_error (notice : string) (pulse indicator : json)
    (fields : list json) (w : world) :
  build_fields notice pulse indicator = Ok (Some fields) →
  (∃ j, j ∈ fields ∧ ∀ s, j ≠ JStr s) →
  main_indicator notice pulse indicator w = (Raise TypeError, w).
Proof.
  intros Hb (j & Hin & Hj).
  rewrite main_indicator_unfold, Hb.
  assert (Hss : as_strs fields = Raise TypeError).
  { destruct (as_strs fields) as [ss|e] eqn:Hss.
    - exfalso. apply as_strs_inv in Hss. subst fields.
      apply list_elem_of_fmap in Hin as (s & -> & _). by apply (Hj s).
    - by rewrite (as_strs_error _ _ Hss). }
  unfold str_join. by rewrite Hss.
Qed.

Lemma non_string_field_is_a_type_error_witness :
  main_indicator "T" null_author_pulse ipv4_indicator initial_world
  = (Raise TypeError, initial_world).
Proof.
  apply (non_string_field_is_a_type_error "T" null_author_pulse ipv4_indicator
           [JStr "1.2.3.4"; JStr "Intel::ADDR"; JNull; JStr fallback_url;
            JStr ("T" +:+ NL)]).
  - reflexivity.
  - exists JNull. split; [|discriminate].
    apply list_elem_of_lookup. by exists 2%nat.
Defined.

Lemma main_pulses_endless server key mtime notice :
  endless server notice →
  ∀ fuel g w, links_on notice g →
    fst (main_pulses server key mtime notice fuel g w) = Ok false.
Proof.
  intros Hsrv. induction fuel as [|fuel IH]; intros g w Hg; [reflexivity|].
  rewrite main_pulses_S.
  destruct g as [|[|result rest] initial_results|next_request|[|result rest] json_data];
    cbn [gen_step links_on] in *.
  - rewrite gen_step_fetch.
    destruct (Hsrv (length (sent w)) (request_of key mtime 20 (JStr EmptyString)))
      as (d & rs & nx & Hs & Hr & Hn & Hb & Hall).
    rewrite (_get_200 _ _ _ _ _ _ (JObj d)) by exact Hs.
    cbn [py_getitem]. rewrite Hr. cbn [py_iter]. apply IH. cbn [links_on].
    split; [exact Hall|]. exists nx. cbn [py_getitem]. by rewrite Hn.
  - rewrite gen_step_next. destruct Hg as (_ & nx & Hn & Hb). rewrite Hn. by apply IH.
  - destruct Hg as (Hall & Hnx). apply Forall_cons in Hall as [Hp Hall].
    cbn [mret M_ret]. destruct (Hp w) as [w' Hw]. rewrite Hw. by apply IH.
  - rewrite Hg, gen_step_fetch.
    destruct (Hsrv (length (sent w)) (request_of key mtime 20 next_request))
      as (d & rs & nx & Hs & Hr & Hn & Hb & Hall).
    rewrite (_get_200 _ _ _ _ _ _ (JObj d)) by exact Hs.
    cbn [py_getitem]. rewrite Hr. cbn [py_iter]. apply IH. cbn [links_on].
    split; [exact Hall|]. exists nx. cbn [py_getitem]. by rewrite Hn.
  - rewrite gen_step_next. destruct Hg as (_ & nx & Hn & Hb). rewrite Hn. by apply IH.
  - destruct Hg as (Hall & Hnx). apply Forall_cons in Hall as [Hp Hall].
    cbn [mret M_ret]. destruct (Hp w) as [w' Hw]. rewrite Hw. by apply IH.
Qed.

(** X11. Against a service whose every page links on, with pulses the
    writer accepts, the run never ends: [main] is still running after any
    number of steps. *)
Theorem pagination_has_no_bound (server : nat → request → option response)
    (cfg : config) (mtime : string) :
  endless server (do_notice cfg) →
  ∀ fuel, fst (main server cfg mtime fuel) = Running.
Proof.
  intros Hsrv fuel. rewrite main_unfold. cbn [fst].
  by rewrite (main_pulses_endless server _ mtime _ Hsrv fuel GStart).
Qed.

Lemma pagination_has_no_bound_witness :
  fst (main loop_server demo_cfg "2020-01-01T00:00:00" 100) = Running.
Proof.
  apply (pagination_has_no_bound loop_server demo_cfg "2020-01-01T00:00:00").
  intros n rq. eexists _, [cve_only_pulse], (JStr "http://otx/page1").
  split; [reflexivity|]. split; [reflexivity|]. split; [reflexivity|].
  split; [reflexivity|].
  apply Forall_cons. split; [|by apply Forall_nil].
  intros w. exists w. rewrite main_pulse_unfold.
  apply (main_indicators_all_unsupported "T" cve_only_pulse
           [obj [("type", JStr "CVE")]; obj [("type", JStr "Mutex"); ("x", JNull)]]).
  repeat (apply Forall_cons; split; [eexists; split; reflexivity|]).
  by apply Forall_nil.
Defined.

(** X12. [map_indicator_type] succeeds exactly on the string tags of the
    table, with the category the table lists for them: no entry is shadowed
    by another, and no value that is not a string is mapped. *)
Theorem map_indicator_type_range (ty : json) (c : string) :
  map_indicator_type ty = Ok c ↔ ∃ t, ty = JStr t ∧ (t, c) ∈ _MAP_items.
Proof.
  split.
  - destruct ty as [| | |t| |]; cbn [map_indicator_type]; try discriminate.
    destruct (_MAP !! t) as [c'|] eqn:Hl; [|discriminate]. intros [= <-].
    exists t. split; [done|]. by apply elem_of_list_to_map_2.
  - intros (t & -> & Hin). cbn [map_indicator_type].
    assert (Hl : _MAP !! t = Some c).
    { apply elem_of_list_to_map_1; [compute_done|exact Hin]. }
    by rewrite Hl.
Qed.

Lemma fetch_stop server key mtime limit next_request w res w'
    (k : list json → json → gen_state) :
  (json_data ← _get server key mtime limit next_request;
   results ← lift (py_getitem json_data "results");
   items ← lift (py_iter results);
   mret (Tau (k items json_data))) w = (res, w') →
  ∃ new, sent w' = sent w ++ new ∧ stops_at_last new res.
Proof.
  rewrite gen_step_fetch, _get_unfold. cbn zeta.
  set (rq := request_of key mtime limit next_request).
  destruct (server (length (sent w)) rq) as [r|] eqn:Hs.
  2:{ intros [= <- <-]. exists [(rq, None)]. split; [done|]. right.
      by exists [], rq, None, RequestException. }
  assert (Hbad : ∀ e, stop_reason (Some r) = Some e →
            ∀ w1, sent w1 = sent w ++ [(rq, Some r)] →
            ∃ new, sent w1 = sent w ++ new ∧ stops_at_last new (@Raise gen_event e)).
  { intros e He w1 Hw1. exists [(rq, Some r)]. split; [done|]. right.
    by exists [], rq, (Some r), e. }
  cbn [stop_reason] in Hbad.
  destruct (status_code r =? 200) eqn:H200.
  - destruct (body r) as [j|] eqn:Hb.
    + assert (Hgood : ∀ (res0 : result gen_event),
                ∃ new, sent (logged w rq (Some r)) = sent w ++ new ∧ stops_at_last new res0).
      { intros res0. exists [(rq, Some r)]. split; [done|]. left.
        apply Forall_singleton. cbn [snd stop_reason]. by rewrite H200, Hb. }
      destruct (py_getitem j "results") as [results|]; [|intros [= <- <-]; apply Hgood].
      destruct (py_iter results); intros [= <- <-]; apply Hgood.
    + intros [= <- <-]. by apply Hbad.
  - destruct (status_code r =? 403).
    + intros [= <- <-]. by apply Hbad.
    + destruct (status_code r =? 400).
      * intros [= <- <-]. by apply Hbad.
      * cbn [py_getitem]. intros [= <- <-]. by apply Hbad.
Qed.

Lemma stops_at_last_nil {A : Type} (res : result A) : stops_at_last [] res.
Proof. left. apply Forall_nil_2. Qed.

Lemma gen_step_stop server key mtime limit g w res w' :
  gen_step server key mtime limit g w = (res, w') →
  ∃ new, sent w' = sent w ++ new ∧ stops_at_last new res.
Proof.
  assert (Hsame : ∀ (r0 : result gen_event),
            ∃ new, sent w = sent w ++ new ∧ stops_at_last new r0).
  { intros r0. exists []. split; [by rewrite app_nil_r|apply stops_at_last_nil]. }
  destruct g as [|[|result rest] initial_results|next_request|[|result rest] json_data];
    cbn [gen_step].
  - apply fetch_stop.
  - rewrite gen_step_next. destruct (py_getitem _ _); intros [= <- <-]; apply Hsame.
  - intros [= <- <-]. apply Hsame.
  - destruct (py_bool next_request); [apply fetch_stop|].
    intros [= <- <-]. apply Hsame.
  - rewrite gen_step_next. destruct (py_getitem _ _); intros [= <- <-]; apply Hsame.
  - intros [= <- <-]. apply Hsame.
Qed.

Lemma stops_at_last_app {A B : Type} (n1 n2 : list (request * option response))
    (a : A) (res : result B) :
  stops_at_last n1 (Ok a) → stops_at_last n2 res → stops_at_last (n1 ++ n2) res.
Proof.
  intros [H1|(? & ? & ? & ? & _ & _ & _ & [=])] [H2|(pre & rq & x & e & -> & Hpre & Hx & ->)].
  - left. by apply Forall_app.
  - right. exists (n1 ++ pre), rq, x, e. rewrite app_assoc.
    split; [done|]. split; [by apply Forall_app|done].
Qed.

Lemma stops_at_last_ok {A B : Type} (new : list (request * option response))
    (a : A) (res : result B) :
  stops_at_last new (Ok a) → stops_at_last new res.
Proof. intros [H|(? & ? & ? & ? & _ & _ & _ & [=])]. by left. Qed.

Lemma main_pulses_stop server key mtime notice fuel :
  ∀ g w res w',
    main_pulses server key mtime notice fuel g w = (res, w') →
    ∃ new, sent w' = sent w ++ new ∧ stops_at_last new res.
Proof.
  induction fuel as [|fuel IH]; intros g w res w'.
  - intros [= <- <-]. exists []. split; [by rewrite app_nil_r|apply stops_at_last_nil].
  - rewrite main_pulses_S.
    destruct (gen_step server key mtime 20 g w) as [[[pulse g'|g'|]|e] w1] eqn:Hg;
      apply gen_step_stop in Hg as (n1 & Hs1 & H1).
    + destruct (main_pulse notice pulse w1) as [[[]|e] w2] eqn:Hp;
        apply main_pulse_written in Hp as [[Hs2 _] _].
      * intros H. apply IH in H as (n2 & Hs & H2). exists (n1 ++ n2).
        split; [by rewrite Hs, Hs2, Hs1, app_assoc|by eapply stops_at_last_app].
      * intros [= <- <-]. exists n1. split; [by rewrite Hs2|by eapply stops_at_last_ok].
    + intros H. apply IH in H as (n2 & Hs & H2). exists (n1 ++ n2).
      split; [by rewrite Hs, Hs1, app_assoc|by eapply stops_at_last_app].
    + intros [= <- <-]. exists n1. split; [done|by eapply stops_at_last_ok].
    + intros [= <- <-]. exists n1. split; [done|].
      destruct H1 as [H1|(pre & rq & a & e' & -> & Hpre & Ha & [= ->])]; [by left|].
      right. by exists pre, rq, a, e'.
Qed.

(** X13. A response that is not a 200 with a JSON body ends the run: it is
    the last one of the log and the process ends on its exception, the
    request error when the client raised, the value error for a body that is
    not JSON, [sys.exit(1)] for 403 and 400, the type error for any other
    status. *)
Theorem run_stops_at_the_first_bad_response
    (server : nat → request → option response) (cfg : config) (mtime : string)
    (fuel : nat) (rq : request) (a : option response) (e : exn) :
  (rq, a) ∈ sent (snd (main server cfg mtime fuel)) →
  stop_reason a = Some e →
  fst (main server cfg mtime fuel) = outcome_of (Raise e) ∧
  last (sent (snd (main server cfg mtime fuel))) = Some (rq, a).
Proof.
  rewrite main_unfold. cbn [fst snd].
  destruct (main_pulses _ _ _ _ _ _ _) as [res w'] eqn:H. cbn [fst snd].
  apply main_pulses_stop in H as (new & Hs & Hl). cbn [sent app] in Hs.
  rewrite Hs. intros Hin Ha.
  destruct Hl as [Hok|(pre & rq' & a' & e' & -> & Hpre & Ha' & ->)].
  - exfalso. rewrite Forall_forall in Hok. specialize (Hok _ Hin). cbn [snd] in Hok.
    congruence.
  - apply elem_of_app in Hin as [Hin|Hin].
    + exfalso. rewrite Forall_forall in Hpre. specialize (Hpre _ Hin). cbn [snd] in Hpre.
      congruence.
    + apply list_elem_of_singleton in Hin. injection Hin as <- <-.
      rewrite last_snoc. split; [|done]. congruence.
Qed.

Lemma run_stops_at_the_first_bad_response_witness :
  fst (main not_json_server demo_cfg "2020-01-01T00:00:00" 9) = Uncaught ValueError ∧
  last (sent (snd (main not_json_server demo_cfg "2020-01-01T00:00:00" 9)))
    = Some (next_page_request "KEY" (JStr "http://otx/page2"), Some (Response 200 None)).
Proof.
  apply (run_stops_at_the_first_bad_response not_json_server demo_cfg
           "2020-01-01T00:00:00" 9%nat _ _ ValueError).
  - apply list_elem_of_lookup. by exists 1%nat.
  - reflexivity.
Defined.
